(** * gh_issues.py: the command pipeline of the GitHub Issues CLI

    A shallow embedding of [src/utils/gh_issues.py].  Each command of the
    tool is a Python function that probes the authentication state of the
    [gh] executable, resolves its inputs, runs [gh] once or twice, prints a
    record and leaves through [typer.Exit].  The embedding keeps that shape:
    a command is a computation over the trace of everything the process has
    done so far (backend invocations and prints, in order) that either
    returns, leaves with an exit code, or dies of an exception nobody
    catches.

    Conventions.
    - A Python [str] is a [string].  The string functions below are exact on
      ASCII text; a character outside ASCII is carried as its UTF-8 bytes and
      is not looked into (Python's [strip] also removes the white space
      U+0085, U+00A0, ..., and [json.dumps] writes such a character as an
      escape).
    - [Optional[str]] is [option string]; Python's truth test is [truthy].
    - A [dict] with string keys is an association list in insertion order.
    - [set(...)] is a [gset string]; the order in which Python walks a set
      is not specified, the model walks it in the order of [elements]. *)

From Stdlib Require Import ZArith Ascii String List.
From stdpp Require Import base list strings gmap pretty.

Local Open Scope string_scope.
Local Open Scope Z_scope.

(** ** Python strings *)

Module PyStr.

Definition nl : string := String (ascii_of_nat 10) EmptyString.

Definition code (a : ascii) : N := N_of_ascii a.

(** [str.isspace] on one ASCII character: TAB..CR, FS..US and space. *)
Definition isspace (a : ascii) : bool :=
  let c := code a in
  ((9 <=? c) && (c <=? 13) || (28 <=? c) && (c <=? 32))%N.

Fixpoint lstrip (s : string) : string :=
  match s with
  | String a rest => if isspace a then lstrip rest else s
  | EmptyString => EmptyString
  end.

Fixpoint rstrip (s : string) : string :=
  match s with
  | String a rest =>
      match rstrip rest with
      | EmptyString => if isspace a then EmptyString else String a EmptyString
      | r => String a r
      end
  | EmptyString => EmptyString
  end.

(** [s.strip()] *)
Definition strip (s : string) : string := rstrip (lstrip s).

(** [s.split(sep)] for a separator of one character. *)
Fixpoint split (sep : ascii) (s : string) : list string :=
  match s with
  | EmptyString => [EmptyString]
  | String a rest =>
      if Ascii.eqb a sep then EmptyString :: split sep rest
      else match split sep rest with
           | piece :: pieces => String a piece :: pieces
           | [] => [String a EmptyString]
           end
  end.

(** [s.replace(old, new)] for single characters. *)
Fixpoint replace (old new : ascii) (s : string) : string :=
  match s with
  | EmptyString => EmptyString
  | String a rest =>
      String (if Ascii.eqb a old then new else a) (replace old new rest)
  end.

Definition islower (a : ascii) : bool := ((97 <=? code a) && (code a <=? 122))%N.
Definition isupper (a : ascii) : bool := ((65 <=? code a) && (code a <=? 90))%N.
Definition upper (a : ascii) : ascii :=
  if islower a then ascii_of_N (code a - 32) else a.
Definition lower (a : ascii) : ascii :=
  if isupper a then ascii_of_N (code a + 32) else a.

Fixpoint title_from (previous_is_cased : bool) (s : string) : string :=
  match s with
  | EmptyString => EmptyString
  | String a rest =>
      if islower a then
        String (if previous_is_cased then a else upper a) (title_from true rest)
      else if isupper a then
        String (if previous_is_cased then lower a else a) (title_from true rest)
      else String a (title_from false rest)
  end.

(** [s.title()] *)
Definition title (s : string) : string := title_from false s.

(** [sep.join(pieces)] *)
Fixpoint join (sep : string) (pieces : list string) : string :=
  match pieces with
  | [] => EmptyString
  | [p] => p
  | p :: ps => p ++ sep ++ join sep ps
  end.

(** The truth value of a string: it is not empty. *)
Definition nonempty (s : string) : bool :=
  match s with EmptyString => false | _ => true end.

(** The truth value of an optional string: given, and not empty. *)
Definition truthy (o : option string) : bool :=
  match o with Some s => nonempty s | None => false end.

(** [str(n)] for an [int]. *)
Definition of_int (n : Z) : string := pretty n.

Definition spaces (n : nat) : string := String.concat EmptyString (List.repeat " " n).

End PyStr.

(** ** The enumerations of the module *)

Inductive IssueType := bug | feature | task | phase | custom.

Inductive OutputFormat := human | json.

Definition IssueType_value (t : IssueType) : string :=
  match t with
  | bug => "bug" | feature => "feature" | task => "task"
  | phase => "phase" | custom => "custom"
  end.

(** ** TEMPLATES *)

Record Template := {
  title_prefix : string;
  labels : list string;
  body_template : string
}.

Definition bug_body : string :=
  PyStr.join PyStr.nl
    ["## Priority"; "{priority}"; EmptyString;
     "## Description"; "{description}"; EmptyString;
     "## Steps to Reproduce"; "{steps}"; EmptyString;
     "## Current Behavior"; "{current_behavior}"; EmptyString;
     "## Expected Behavior"; "{expected_behavior}"; EmptyString].

Definition feature_body : string :=
  PyStr.join PyStr.nl
    ["## Priority"; "{priority}"; EmptyString;
     "## Description"; "{description}"; EmptyString;
     "## Implementation"; "{implementation}"; EmptyString;
     "## Benefits"; "{benefits}"; EmptyString].

Definition task_body : string :=
  PyStr.join PyStr.nl
    ["## Priority"; "{priority}"; EmptyString;
     "## Description"; "{description}"; EmptyString;
     "## Implementation Steps"; "{implementation}"; EmptyString;
     "## Acceptance Criteria"; "{criteria}"; EmptyString].

(** The dictionary [TEMPLATES], keyed by the value of the type tag. *)
Definition TEMPLATES : gmap string Template :=
  <[ "bug" := {| title_prefix := "[Bug]"; labels := ["bug"];
                 body_template := bug_body |} ]>
  (<[ "feature" := {| title_prefix := "[Feature]"; labels := ["enhancement"];
                      body_template := feature_body |} ]>
  (<[ "task" := {| title_prefix := "[Task]"; labels := ["task"];
                   body_template := task_body |} ]> ∅)).

(** ** Records handed to [output] *)

Inductive scalar :=
| VStr (s : string)
| VInt (n : Z)
| VBool (b : bool)
| VNone.

(** A [dict] of scalars, in insertion order. *)
Definition record := list (string * scalar).

(** The [data: dict | list] argument of [output].  The commands modelled
    here pass a flat dict or a list of flat dicts. *)
Inductive data :=
| DDict (d : record)
| DList (items : list record).

(** [str(v)] *)
Definition py_str (v : scalar) : string :=
  match v with
  | VStr s => s
  | VInt n => PyStr.of_int n
  | VBool true => "True"
  | VBool false => "False"
  | VNone => "None"
  end.

(** ** json.dumps(data, indent=2) *)

Module Json.

Definition hex_digit (n : N) : ascii :=
  if (n <? 10)%N then ascii_of_N (48 + n) else ascii_of_N (87 + n).

Definition dquote : string := String (ascii_of_nat 34) EmptyString.

Definition escape_char (a : ascii) : string :=
  let c := PyStr.code a in
  if (c =? 34)%N then String "\" dquote
  else if (c =? 92)%N then "\\"
  else if (c =? 8)%N then "\b"
  else if (c =? 12)%N then "\f"
  else if (c =? 10)%N then "\n"
  else if (c =? 13)%N then "\r"
  else if (c =? 9)%N then "\t"
  else if ((c <? 32) || (c =? 127))%N then
    "\u00" ++ String (hex_digit (c / 16)) (String (hex_digit (c mod 16)) EmptyString)
  else String a EmptyString.

Fixpoint escape (s : string) : string :=
  match s with
  | EmptyString => EmptyString
  | String a rest => escape_char a ++ escape rest
  end.

Definition quoted (s : string) : string :=
  dquote ++ escape s ++ dquote.

Definition of_scalar (v : scalar) : string :=
  match v with
  | VStr s => quoted s
  | VInt n => PyStr.of_int n
  | VBool true => "true"
  | VBool false => "false"
  | VNone => "null"
  end.

(** A new line followed by the indentation of nesting depth [depth]. *)
Definition newline_indent (depth : nat) : string :=
  PyStr.nl ++ PyStr.spaces (2 * depth).

Definition container (opening closing : string) (depth : nat)
    (members : list string) : string :=
  match members with
  | [] => opening ++ closing
  | _ => opening ++ newline_indent (S depth)
         ++ PyStr.join ("," ++ newline_indent (S depth)) members
         ++ newline_indent depth ++ closing
  end.

Definition of_record (depth : nat) (d : record) : string :=
  container "{" "}" depth
    (map (fun kv => quoted (fst kv) ++ ": " ++ of_scalar (snd kv)) d).

Definition dumps (x : data) : string :=
  match x with
  | DDict d => of_record 0 d
  | DList items => container "[" "]" 0 (map (of_record 1) items)
  end.

End Json.

(** ** The process and its surroundings *)

(** [subprocess.CompletedProcess], as [run_gh] captures it. *)
Record CompletedProcess := {
  returncode : Z;
  stdout : string;
  stderr : string
}.

(** What [open(path, 'r', encoding='utf-8')] followed by [f.read()] does. *)
Inductive read_result :=
| FileText (text : string)
| FileNotFoundError
| OtherError (exn : string).  (* PermissionError, IsADirectoryError, ... *)

(** A rich [Table]: the headers added by [add_column], the rows by [add_row]. *)
Record Table := {
  columns : list string;
  rows : list (list string)
}.

(** Whatever the process does that can be seen from outside, in order. *)
Inductive event :=
| Gh (args : list string)          (* subprocess.run(["gh"] + args, ...) *)
| Print (text : string)            (* print(text) *)
| Rprint (markup : string)         (* rich.print(markup) *)
| ConsolePrint (table : Table).    (* console.print(table) *)

(** The backend invocations of a trace, oldest first. *)
Definition gh_calls (tr : list event) : list (list string) :=
  omap (fun e => match e with Gh args => Some args | _ => None end) tr.

(** The surroundings of one run.  The backend is an external process with a
    state of its own: what an invocation returns may depend on every
    invocation this process made before it. *)
Record Env := {
  gh_proc : list (list string) -> list string -> CompletedProcess;
  open_read : string -> read_result;
  stdin_read : string
}.

(** How a computation ends: with a value, through [typer.Exit(code)], or
    with an exception that no handler of the module catches. *)
Inductive result (A : Type) :=
| Ret (a : A)
| Exit (code : Z)
| Uncaught (exn : string).
Arguments Ret {A} a.
Arguments Exit {A} code.
Arguments Uncaught {A} exn.

Definition M (A : Type) : Type := Env -> list event -> result A * list event.

Definition ret {A} (a : A) : M A := fun _ tr => (Ret a, tr).

Definition bind {A B} (c : M A) (k : A -> M B) : M B :=
  fun env tr =>
    match c env tr with
    | (Ret a, tr') => k a env tr'
    | (Exit code, tr') => (Exit code, tr')
    | (Uncaught exn, tr') => (Uncaught exn, tr')
    end.

Notation "'let*' x ':=' c 'in' k" := (bind c (fun x => k))
  (at level 10, x binder, c at level 100, k at level 200).
Notation "c '>>;' k" := (bind c (fun _ => k))
  (at level 100, k at level 200, right associativity).

Definition emit (e : event) : M unit := fun _ tr => (Ret tt, (tr ++ [e])%list).

(** [raise typer.Exit(code=code)] *)
Definition raise_Exit {A} (code : Z) : M A := fun _ tr => (Exit code, tr).

Definition raise {A} (exn : string) : M A := fun _ tr => (Uncaught exn, tr).

Definition print (text : string) : M unit := emit (Print text).
Definition rprint (markup : string) : M unit := emit (Rprint markup).
Definition console_print (t : Table) : M unit := emit (ConsolePrint t).

(** [if b: c] *)
Definition when (b : bool) (c : M unit) : M unit := if b then c else ret tt.

(** [for x in xs: body(x)] *)
Fixpoint for_each {A} (xs : list A) (body : A -> M unit) : M unit :=
  match xs with
  | [] => ret tt
  | x :: rest => body x >>; for_each rest body
  end.

(** ** HELPERS *)

Definition run_gh (args : list string) (check : bool) : M CompletedProcess :=
  fun env tr =>
    let result := gh_proc env (gh_calls tr) args in
    let tr' := (tr ++ [Gh args])%list in
    if check && negb (returncode result =? 0)
    then (Exit 1, tr')
    else (Ret result, tr').

Definition check_mark : string := "[green]✓[/green] ".

(** What a name of the module stands for when a command runs. *)
Inductive pyobject :=
| builtin_type (name : string)
| function (name : string).

(** The name [list].  The module defines the command [list] at line 278
    ([def list(...)], which [app.command()] hands back as it is), so by the
    time any command runs the name is bound to that function and no longer
    to the type. *)
Definition list_name : pyobject := function "list".

(** The name [dict], which the module leaves alone. *)
Definition dict_name : pyobject := builtin_type "dict".

Definition type_name (x : data) : string :=
  match x with
  | DList _ => "list"
  | DDict _ => "dict"
  end.

(** [isinstance(x, cls)]: a [TypeError] when [cls] is not a type. *)
Definition isinstance (x : data) (cls : pyobject) : M bool :=
  match cls with
  | builtin_type name => ret (String.eqb (type_name x) name)
  | function _ => raise "TypeError"
  end.

Definition output (x : data) (fmt : OutputFormat) (msg : string) : M unit :=
  match fmt with
  | json => print (Json.dumps x)
  | human =>
      when (PyStr.nonempty msg) (rprint (check_mark ++ msg)) >>;
      let* is_list := isinstance x list_name in
      if is_list then
        match x with
        | DList [] => rprint "[yellow]No results.[/yellow]"
        | DList (first :: others) =>
            console_print
              {| columns :=
                   map (fun kv => PyStr.title (PyStr.replace "_" " " (fst kv)))
                       first;
                 rows :=
                   map (fun item => map (fun kv => py_str (snd kv)) item)
                       (first :: others) |}
        | DDict _ => ret tt
        end
      else
        let* is_dict := isinstance x dict_name in
        if is_dict then
          match x with
          | DDict d =>
              for_each d (fun kv =>
                let '(k, v) := kv in
                if negb (String.eqb k "body")
                then rprint ("[bold]" ++ k ++ ":[/bold] " ++ py_str v)
                else rprint ("[bold]" ++ k ++ ":[/bold]" ++ PyStr.nl
                             ++ py_str v))
          | DList _ => ret tt
          end
        else ret tt
  end.

Definition ensure_auth : M unit :=
  let* probe := run_gh ["auth"; "status"] false in
  if negb (returncode probe =? 0)
  then rprint "[red]Error:[/red] gh not authenticated. Run: gh auth login" >>;
       raise_Exit 1
  else ret tt.

(** ** Running a command *)

(** The end of a process: its exit status and everything it did. *)
Record outcome := {
  status : Z;
  trace : list event
}.

(** A command that returns ends the process with status 0, [typer.Exit]
    with its code, an uncaught exception with status 1. *)
Definition run (c : M unit) (env : Env) : outcome :=
  match c env [] with
  | (Ret _, tr) => {| status := 0; trace := tr |}
  | (Exit code, tr) => {| status := code; trace := tr |}
  | (Uncaught _, tr) => {| status := 1; trace := tr |}
  end.

(** ** COMMANDS *)

(** The block
      [try: with open(body_file, 'r', encoding='utf-8') as f: final_body = f.read()]
      [except FileNotFoundError: output({"error": f"File not found: {body_file}"}, output_fmt); raise typer.Exit(code=1)]
    which [create], [comment] and [edit] each carry.  Any other exception
    of [open] or [read] leaves the block uncaught. *)
Definition read_body_file (body_file : string) (output_fmt : OutputFormat)
    : M string :=
  fun env tr =>
    match open_read env body_file with
    | FileText text => ret text env tr
    | FileNotFoundError =>
        (output (DDict [("error", VStr ("File not found: " ++ body_file))])
                output_fmt EmptyString >>;
         raise_Exit 1) env tr
    | OtherError exn => raise exn env tr
    end.

(** [sys.stdin.read()] *)
Definition sys_stdin_read : M string := fun env tr => (Ret (stdin_read env), tr).

(** [if value: args.extend([flag, value])] *)
Definition extend_if (flag : string) (value : option string) : list string :=
  match value with
  | Some v => if PyStr.nonempty v then [flag; v] else []
  | None => []
  end.

(** [x or ""] *)
Definition or_empty (x : option string) : string := default EmptyString x.

(** [TEMPLATES.get(issue_type.value, {})] followed by the two [get]s with
    their defaults. *)
Definition template_prefix (t : IssueType) : string :=
  default EmptyString (title_prefix <$> TEMPLATES !! IssueType_value t).
Definition template_labels (t : IssueType) : list string :=
  default [] (labels <$> TEMPLATES !! IssueType_value t).

Definition is_custom (t : IssueType) : bool :=
  match t with custom => true | _ => false end.

(** The title of [create] after the template step (lines 364 and 377-380). *)
Definition create_final_title (title : string) (issue_type : option IssueType)
    : string :=
  match issue_type with
  | Some t =>
      if negb (is_custom t)
      then PyStr.strip (template_prefix t ++ " " ++ title)
      else title
  | None => title
  end.

(** The list [final_labels] of [create] (lines 365 and 381). *)
Definition create_final_labels (labels : option string)
    (issue_type : option IssueType) : list string :=
  let final_labels :=
    match labels with
    | Some l => if PyStr.nonempty l then PyStr.split "," l else []
    | None => []
    end in
  match issue_type with
  | Some t =>
      if negb (is_custom t)
      then (final_labels ++ template_labels t)%list
      else final_labels
  | None => final_labels
  end.

(** [for label in set(final_labels): args.extend(["--label", label.strip()])] *)
Definition label_args (final_labels : list string) : list string :=
  flat_map (fun label => ["--label"; PyStr.strip label])
           (elements (list_to_set final_labels : gset string)).

(** The argument list [create] hands to [gh] (lines 383-387). *)
Definition create_args (final_title final_body : string)
    (final_labels : list string) (assignee : option string) : list string :=
  (["issue"; "create"; "--title"; final_title; "--body"; final_body]
   ++ label_args final_labels ++ extend_if "--assignee" assignee)%list.

Definition create (title : string) (body body_file : option string)
    (issue_type : option IssueType) (labels assignee : option string)
    (output_fmt : OutputFormat) : M unit :=
  ensure_auth >>;
  let* final_body :=
    (match body_file with
     | Some path =>
         if PyStr.nonempty path then read_body_file path output_fmt
         else ret (or_empty body)
     | None => ret (or_empty body)
     end) in
  let final_title := create_final_title title issue_type in
  let final_labels := create_final_labels labels issue_type in
  let* result :=
    run_gh (create_args final_title final_body final_labels assignee) false in
  if negb (returncode result =? 0) then
    output (DDict [("error", VStr "Failed to create issue");
                   ("details", VStr (PyStr.strip (stderr result)))])
           output_fmt EmptyString >>;
    raise_Exit 1
  else
    let url := PyStr.strip (stdout result) in
    let issue_num :=
      if PyStr.nonempty url then List.last (PyStr.split "/" url) EmptyString
      else "unknown" in
    output (DDict [("success", VBool true); ("issue_number", VStr issue_num);
                   ("url", VStr url)])
           output_fmt ("Created #" ++ issue_num).

(** The default of [--reason]. *)
Definition default_reason : string := "completed".

Definition close (issue_number : Z) (comment : option string) (reason : string)
    (output_fmt : OutputFormat) : M unit :=
  ensure_auth >>;
  (match comment with
   | Some text =>
       if PyStr.nonempty text
       then run_gh ["issue"; "comment"; PyStr.of_int issue_number;
                    "--body"; text] false >>; ret tt
       else ret tt
   | None => ret tt
   end) >>;
  let* result :=
    run_gh ["issue"; "close"; PyStr.of_int issue_number; "--reason"; reason]
           false in
  if negb (returncode result =? 0) then
    output (DDict [("error",
                    VStr ("Failed to close #" ++ PyStr.of_int issue_number))])
           output_fmt EmptyString >>;
    raise_Exit 1
  else
    output (DDict [("success", VBool true); ("issue_number", VInt issue_number);
                   ("reason", VStr reason)])
           output_fmt ("Closed #" ++ PyStr.of_int issue_number).

Definition reopen (issue_number : Z) (comment : option string)
    (output_fmt : OutputFormat) : M unit :=
  ensure_auth >>;
  (match comment with
   | Some text =>
       if PyStr.nonempty text
       then run_gh ["issue"; "comment"; PyStr.of_int issue_number;
                    "--body"; text] false >>; ret tt
       else ret tt
   | None => ret tt
   end) >>;
  let* result :=
    run_gh ["issue"; "reopen"; PyStr.of_int issue_number] false in
  if negb (returncode result =? 0) then
    output (DDict [("error",
                    VStr ("Failed to reopen #" ++ PyStr.of_int issue_number))])
           output_fmt EmptyString >>;
    raise_Exit 1
  else
    output (DDict [("success", VBool true); ("issue_number", VInt issue_number);
                   ("action", VStr "reopened")])
           output_fmt ("Reopened #" ++ PyStr.of_int issue_number).

(** The body of [comment] as lines 452-462 determine it. *)
Definition comment_final_body (body body_file : option string)
    (body_stdin : bool) (output_fmt : OutputFormat) : M (option string) :=
  if body_stdin then
    let* text := sys_stdin_read in ret (Some text)
  else
    match body_file with
    | Some path =>
        if PyStr.nonempty path
        then let* text := read_body_file path output_fmt in ret (Some text)
        else ret body
    | None => ret body
    end.

Definition no_body_message : string :=
  "No body provided. Use --body, --body-file, or --stdin".

Definition comment (issue_number : Z) (body body_file : option string)
    (body_stdin : bool) (output_fmt : OutputFormat) : M unit :=
  ensure_auth >>;
  let* final_body := comment_final_body body body_file body_stdin output_fmt in
  if negb (PyStr.truthy final_body) then
    output (DDict [("error", VStr no_body_message)]) output_fmt EmptyString >>;
    raise_Exit 1
  else
    let* result :=
      run_gh ["issue"; "comment"; PyStr.of_int issue_number;
              "--body"; or_empty final_body] false in
    if negb (returncode result =? 0) then
      output (DDict [("error",
                      VStr ("Failed to comment on #"
                            ++ PyStr.of_int issue_number))])
             output_fmt EmptyString >>;
      raise_Exit 1
    else
      output (DDict [("success", VBool true);
                     ("issue_number", VInt issue_number);
                     ("action", VStr "commented")])
             output_fmt ("Commented on #" ++ PyStr.of_int issue_number).

(** The body of [edit] as lines 490-498 determine it. *)
Definition edit_final_body (body body_file : option string)
    (output_fmt : OutputFormat) : M (option string) :=
  match body_file with
  | Some path =>
      if PyStr.nonempty path
      then let* text := read_body_file path output_fmt in ret (Some text)
      else ret body
  | None => ret body
  end.

(** The argument list of [edit] (lines 500-510). *)
Definition edit_args (issue_number : Z)
    (title final_body add_labels remove_labels add_assignee : option string)
    : list string :=
  (["issue"; "edit"; PyStr.of_int issue_number]
   ++ extend_if "--title" title
   ++ extend_if "--body" final_body
   ++ extend_if "--add-label" add_labels
   ++ extend_if "--remove-label" remove_labels
   ++ extend_if "--add-assignee" add_assignee)%list.

Definition no_changes_notice : string := "[yellow]No changes specified.[/yellow]".

Definition edit (issue_number : Z)
    (title body body_file add_labels remove_labels add_assignee : option string)
    (output_fmt : OutputFormat) : M unit :=
  ensure_auth >>;
  let* final_body := edit_final_body body body_file output_fmt in
  let args := edit_args issue_number title final_body add_labels remove_labels
                        add_assignee in
  if (length args =? 3)%nat then
    rprint no_changes_notice >>;
    raise_Exit 0
  else
    let* result := run_gh args false in
    if negb (returncode result =? 0) then
      output (DDict [("error",
                      VStr ("Failed to edit #" ++ PyStr.of_int issue_number))])
             output_fmt EmptyString >>;
      raise_Exit 1
    else
      output (DDict [("success", VBool true);
                     ("issue_number", VInt issue_number);
                     ("action", VStr "edited")])
             output_fmt ("Edited #" ++ PyStr.of_int issue_number).

(** ** Vocabulary of the statements *)

(** The pre-flight invocation of [ensure_auth]. *)
Definition probe : list string := ["auth"; "status"].

(** The probe, which is the first thing a command does, succeeds. *)
Definition authenticated (env : Env) : Prop :=
  returncode (gh_proc env [] probe) = 0.

(** The record [{"error": message}]. *)
Definition error_record (message : string) : data :=
  DDict [("error", VStr message)].

(** The [gh issue comment] invocation carrying [text]. *)
Definition comment_call (issue_number : Z) (text : string) : list string :=
  ["issue"; "comment"; PyStr.of_int issue_number; "--body"; text].

(** The body an invocation of [comment] resolves: what [ensure_auth] and
    lines 452-462 leave in [final_body], when the run gets that far. *)
Definition comment_resolves (env : Env) (body body_file : option string)
    (body_stdin : bool) (fmt : OutputFormat) (final_body : option string)
    : Prop :=
  fst ((ensure_auth >>; comment_final_body body body_file body_stdin fmt)
         env [])
  = Ret final_body.

(** The body an invocation of [edit] resolves (lines 488-498). *)
Definition edit_resolves (env : Env) (body body_file : option string)
    (fmt : OutputFormat) (final_body : option string) : Prop :=
  fst ((ensure_auth >>; edit_final_body body body_file fmt) env [])
  = Ret final_body.

(** The [gh issue close] and [gh issue reopen] invocations. *)
Definition close_call (issue_number : Z) (reason : string) : list string :=
  ["issue"; "close"; PyStr.of_int issue_number; "--reason"; reason].

Definition reopen_call (issue_number : Z) : list string :=
  ["issue"; "reopen"; PyStr.of_int issue_number].

(** ** Sample surroundings *)

Module Samples.

Definition succeeded : CompletedProcess :=
  {| returncode := 0; stdout := EmptyString; stderr := EmptyString |}.

Definition failed : CompletedProcess :=
  {| returncode := 1; stdout := EmptyString; stderr := "gh: failed" |}.

(** [notes.md] has text, [empty.md] exists and is empty, no other path
    exists. *)
Definition files (path : string) : read_result :=
  if String.eqb path "notes.md" then FileText "from the file"
  else if String.eqb path "empty.md" then FileText EmptyString
  else FileNotFoundError.

(** Every invocation of the backend succeeds. *)
Definition logged_in : Env :=
  {| gh_proc := fun _ _ => succeeded;
     open_read := files;
     stdin_read := "from stdin" |}.

(** As [logged_in], with nothing on standard input. *)
Definition logged_in_empty_stdin : Env :=
  {| gh_proc := fun _ _ => succeeded;
     open_read := files;
     stdin_read := EmptyString |}.

(** The probe fails: [gh] has no session. *)
Definition logged_out : Env :=
  {| gh_proc := fun _ args =>
       match args with
       | "auth" :: _ => failed
       | _ => succeeded
       end;
     open_read := files;
     stdin_read := "from stdin" |}.

(** The backend refuses to add comments and does everything else. *)
Definition comments_refused : Env :=
  {| gh_proc := fun _ args =>
       match args with
       | "issue" :: "comment" :: _ => failed
       | _ => succeeded
       end;
     open_read := files;
     stdin_read := "from stdin" |}.

End Samples.

(** ** More vocabulary *)

(** [url.split("/")[-1] if url else "unknown"] (line 395 of [create]). *)
Definition issue_num_of (url : string) : string :=
  if PyStr.nonempty url then List.last (PyStr.split "/" url) EmptyString
  else "unknown".

(** The labels [create] names after [--label], in the order of the walk. *)
Definition labels_passed (final_labels : list string) : list string :=
  map PyStr.strip (elements (list_to_set final_labels : gset string)).

(** The arguments that follow [gh issue edit N] are all absent. *)
Definition nothing_to_edit
    (title final_body add_labels remove_labels add_assignee : option string)
    : bool :=
  negb (PyStr.truthy title || PyStr.truthy final_body
        || PyStr.truthy add_labels || PyStr.truthy remove_labels
        || PyStr.truthy add_assignee).

(** A string holds the character [a]. *)
Fixpoint has_char (a : ascii) (s : string) : bool :=
  match s with
  | EmptyString => false
  | String b rest => Ascii.eqb b a || has_char a rest
  end.

(** What [create] takes as the body before it thinks of the backend
    (lines 368-372): the text of the file when a path is given, else the
    inline text, else the empty string. *)
Definition create_body (env : Env) (body body_file : option string)
    : read_result :=
  match body_file with
  | Some path =>
      if PyStr.nonempty path then open_read env path
      else FileText (or_empty body)
  | None => FileText (or_empty body)
  end.

(** A run begins with the probe and ends with status 0 or 1. *)
Definition orderly (o : outcome) : Prop :=
  (exists rest, trace o = Gh probe :: rest) /\ (status o = 0 \/ status o = 1).

(** ** More sample surroundings *)

Module Tracker.

(** The backend answers a creation with the address of the new issue and
    refuses every other change to an issue with a diagnostic text. *)
Definition answers (args : list string) : CompletedProcess :=
  match args with
  | "issue" :: "create" :: _ =>
      {| returncode := 0;
         stdout := "https://github.com/o/r/issues/7" ++ PyStr.nl;
         stderr := EmptyString |}
  | "issue" :: _ =>
      {| returncode := 1;
         stdout := EmptyString;
         stderr := "GraphQL: Could not resolve to an issue" |}
  | _ => Samples.succeeded
  end.

Definition env : Env :=
  {| gh_proc := fun _ args => answers args;
     open_read := Samples.files;
     stdin_read := "  " |}.

(** The same backend with other words on its error stream. *)
Definition terse : Env :=
  {| gh_proc := fun _ args =>
       {| returncode := returncode (answers args);
          stdout := EmptyString;
          stderr := EmptyString |};
     open_read := Samples.files;
     stdin_read := "  " |}.

End Tracker.

(** How often the character [a] occurs in a string. *)
Fixpoint count_char (a : ascii) (s : string) : nat :=
  match s with
  | EmptyString => 0
  | String b rest => (if Ascii.eqb b a then 1 else 0) + count_char a rest
  end.

(** Two surroundings whose backends return the same codes and whose files
    and standard input are the same; what their backends write on [stdout]
    and [stderr] may differ. *)
Definition same_return_codes (env1 env2 : Env) : Prop :=
  (forall history args,
     returncode (gh_proc env1 history args)
     = returncode (gh_proc env2 history args))
  /\ (forall path, open_read env1 path = open_read env2 path)
  /\ stdin_read env1 = stdin_read env2.

(** ** The commands that read: list, search, labels, status

    These commands decode what the backend prints with [json.loads].  The
    decoder is taken as given: it maps a text to the decoded reply, or to
    nothing when the text is not JSON ([json.JSONDecodeError], which no
    handler catches).  A decoded reply is an array of objects (one object
    for [gh repo view]) that keeps the keys the commands read.  The value
    of a key is a string, an integer, a boolean or [null] (a [scalar], with
    [VNone] for [null]), except [labels], an array of label objects or
    [null], and [author] and [owner], an object or [null]; any key may be
    missing.  Fractions, and an array or an object where [gh] writes a
    scalar, are not covered. *)

(** [s[:n]] *)
Fixpoint str_prefix (n : nat) (s : string) : string :=
  match n, s with
  | S m, String a rest => String a (str_prefix m rest)
  | _, _ => EmptyString
  end.

(** A value that may be [null]. *)
Inductive nullable (A : Type) :=
| IsNull
| NotNull (a : A).
Arguments IsNull {A}.
Arguments NotNull {A} a.

(** [{"login": ...}] *)
Record AuthorJson := {
  a_login : option scalar
}.

(** [{"name": ..., "description": ...}] *)
Record LabelJson := {
  l_name : option scalar;
  l_description : option scalar
}.

(** One issue of a reply to [gh issue list --json ...]. *)
Record IssueJson := {
  i_number : option scalar;
  i_title : option scalar;
  i_state : option scalar;
  i_labels : option (nullable (list LabelJson));
  i_author : option (nullable AuthorJson);
  i_createdAt : option scalar
}.

(** The reply to [gh repo view --json name,owner,url]. *)
Record RepoJson := {
  r_owner : option (nullable AuthorJson);
  r_name : option scalar;
  r_url : option scalar
}.

(** [d[key]]: the value, or [KeyError] uncaught. *)
Definition subscript {A} (key : string) (value : option A) : M A :=
  match value with
  | Some v => ret v
  | None => raise "KeyError"
  end.

(** [json.loads(text)] with the decoder [loads]. *)
Definition json_loads {A} (loads : string -> option A) (text : string) : M A :=
  match loads text with
  | Some v => ret v
  | None => raise "json.JSONDecodeError"
  end.

(** [[f(x) for x in xs]], where [f] may raise. *)
Fixpoint comprehension {A B} (f : A -> M B) (xs : list A) : M (list B) :=
  match xs with
  | [] => ret []
  | x :: rest =>
      let* y := f x in
      let* ys := comprehension f rest in
      ret (y :: ys)
  end.

(** The strings of a list of values, when all of them are strings. *)
Fixpoint all_strings (items : list scalar) : option (list string) :=
  match items with
  | [] => Some []
  | VStr s :: rest => cons s <$> all_strings rest
  | _ :: _ => None
  end.

(** [sep.join(items)]: a [TypeError] when an item is not a string. *)
Definition str_join (sep : string) (items : list scalar) : M string :=
  match all_strings items with
  | Some pieces => ret (PyStr.join sep pieces)
  | None => raise "TypeError"
  end.

(** [", ".join(l["name"] for l in i.get("labels", []))]: a [null] cannot
    be walked; every name is looked up before the first is joined. *)
Definition joined_label_names (i : IssueJson) : M string :=
  let* labels :=
    (match i_labels i with
     | None => ret []
     | Some (NotNull labels) => ret labels
     | Some IsNull => raise "TypeError"
     end) in
  let* names := comprehension (fun l => subscript "name" (l_name l)) labels in
  str_join ", " names.

(** [x.get("author", {}).get("login", "")]: [null] has no [get]. *)
Definition get_login (author : option (nullable AuthorJson)) : M scalar :=
  match author with
  | None => ret (VStr EmptyString)
  | Some (NotNull a) => ret (default (VStr EmptyString) (a_login a))
  | Some IsNull => raise "AttributeError"
  end.

(** [i.get("createdAt", "")[:10]]: only a string can be cut. *)
Definition first_ten (created_at : option scalar) : M scalar :=
  match created_at with
  | None => ret (VStr EmptyString)
  | Some (VStr s) => ret (VStr (str_prefix 10 s))
  | Some _ => raise "TypeError"
  end.

Module Query.

Inductive IssueState := open | closed | all.

Definition IssueState_value (s : IssueState) : string :=
  match s with open => "open" | closed => "closed" | all => "all" end.

Section Decoder.

Variable loads_issues : string -> option (list IssueJson).
Variable loads_labels : string -> option (list LabelJson).
Variable loads_repo : string -> option RepoJson.

(** The dict [list] makes of one issue (lines 301-308). *)
Definition list_row (i : IssueJson) : M record :=
  let* number := subscript "number" (i_number i) in
  let* title := subscript "title" (i_title i) in
  let* state := subscript "state" (i_state i) in
  let* names := joined_label_names i in
  let* author := get_login (i_author i) in
  let* created := first_ten (i_createdAt i) in
  ret [("number", number);
       ("title", title);
       ("state", state);
       ("labels", VStr names);
       ("author", author);
       ("created", created)].

(** The dict [search] makes of one issue (lines 544-550). *)
Definition search_row (i : IssueJson) : M record :=
  let* number := subscript "number" (i_number i) in
  let* title := subscript "title" (i_title i) in
  let* state := subscript "state" (i_state i) in
  let* names := joined_label_names i in
  let* created := first_ten (i_createdAt i) in
  ret [("number", number);
       ("title", title);
       ("state", state);
       ("labels", VStr names);
       ("created", created)].

(** The dict [labels] makes of one label (line 568). *)
Definition labels_row (l : LabelJson) : M record :=
  let* name := subscript "name" (l_name l) in
  ret [("name", name);
       ("description", default (VStr EmptyString) (l_description l))].

(** [json.loads(result.stdout) if result.stdout else []] *)
Definition loads_or_empty {A} (loads : string -> option (list A))
    (text : string) : M (list A) :=
  if PyStr.nonempty text then json_loads loads text else ret [].

Definition search (query : string) (state : IssueState) (limit : Z)
    (output_fmt : OutputFormat) : M unit :=
  ensure_auth >>;
  let* result :=
    run_gh ["issue"; "list"; "--search"; query;
            "--state"; IssueState_value state;
            "--limit"; PyStr.of_int limit;
            "--json"; "number,title,state,labels,author,createdAt"] false in
  if negb (returncode result =? 0) then
    output (DDict [("error", VStr "Search failed")]) output_fmt EmptyString >>;
    raise_Exit 1
  else
    let* issues := loads_or_empty loads_issues (stdout result) in
    let* formatted := comprehension search_row issues in
    output (DList formatted) output_fmt EmptyString.

Definition labels (output_fmt : OutputFormat) : M unit :=
  ensure_auth >>;
  let* result :=
    run_gh ["label"; "list"; "--json"; "name,description,color"] false in
  if negb (returncode result =? 0) then
    output (DDict [("error", VStr "Failed to list labels")])
           output_fmt EmptyString >>;
    raise_Exit 1
  else
    let* labels_data := loads_or_empty loads_labels (stdout result) in
    let* formatted := comprehension labels_row labels_data in
    output (DList formatted) output_fmt EmptyString.

Definition status (output_fmt : OutputFormat) : M unit :=
  let* auth := run_gh ["auth"; "status"] false in
  let* repo := run_gh ["repo"; "view"; "--json"; "name,owner,url"] false in
  let data := [("authenticated", VBool (returncode auth =? 0))] in
  let* data :=
    (if returncode repo =? 0 then
       let* r := json_loads loads_repo (stdout repo) in
       let* login := get_login (r_owner r) in
       let name := default (VStr EmptyString) (r_name r) in
       ret (data
            ++ [("repository", VStr (py_str login ++ "/" ++ py_str name));
                ("url", default (VStr EmptyString) (r_url r))])%list
     else
       ret (data ++ [("repository", VNone)])%list) in
  output (DDict data) output_fmt EmptyString.

Definition list (state : IssueState) (labels assignee : option string)
    (limit : Z) (output_fmt : OutputFormat) : M unit :=
  ensure_auth >>;
  let args :=
    (["issue"; "list"; "--state"; IssueState_value state;
      "--limit"; PyStr.of_int limit;
      "--json";
      "number,title,state,labels,author,createdAt,updatedAt,assignees"]
     ++ extend_if "--label" labels
     ++ extend_if "--assignee" assignee)%list in
  let* result := run_gh args false in
  if negb (returncode result =? 0) then
    output (DDict [("error", VStr "Failed to list issues");
                   ("details", VStr (PyStr.strip (stderr result)))])
           output_fmt EmptyString >>;
    raise_Exit 1
  else
    let* issues := loads_or_empty loads_issues (stdout result) in
    let* formatted := comprehension list_row issues in
    output (DList formatted) output_fmt EmptyString.

End Decoder.

End Query.

(** The arguments of the invocation [Query.list] makes after the probe. *)
Definition list_call (state : Query.IssueState) (labels assignee : option string)
    (limit : Z) : list string :=
  (["issue"; "list"; "--state"; Query.IssueState_value state;
    "--limit"; PyStr.of_int limit;
    "--json"; "number,title,state,labels,author,createdAt,updatedAt,assignees"]
   ++ extend_if "--label" labels ++ extend_if "--assignee" assignee)%list.

(** The arguments of the invocation [Query.search] makes after the probe. *)
Definition search_call (query : string) (state : Query.IssueState) (limit : Z)
    : list string :=
  ["issue"; "list"; "--search"; query;
   "--state"; Query.IssueState_value state;
   "--limit"; PyStr.of_int limit;
   "--json"; "number,title,state,labels,author,createdAt"].

Definition labels_call : list string :=
  ["label"; "list"; "--json"; "name,description,color"].

Definition repo_call : list string :=
  ["repo"; "view"; "--json"; "name,owner,url"].

Module Replies.

(** A key or a string of a JSON text, in its quotes. *)
Definition q (s : string) : string := Json.dquote ++ s ++ Json.dquote.

(** Two issues as [gh] prints them: the second has neither labels, nor
    author, nor date. *)
Definition two_issues_text : string :=
  "[{" ++ q "number" ++ ": 7, " ++ q "title" ++ ": " ++ q "Login fails"
  ++ ", " ++ q "state" ++ ": " ++ q "OPEN"
  ++ ", " ++ q "labels" ++ ": [{" ++ q "name" ++ ": " ++ q "bug" ++ "}, {"
  ++ q "name" ++ ": " ++ q "ui" ++ "}]"
  ++ ", " ++ q "author" ++ ": {" ++ q "login" ++ ": " ++ q "ann" ++ "}"
  ++ ", " ++ q "createdAt" ++ ": " ++ q "2025-01-02T03:04:05Z" ++ "}, {"
  ++ q "number" ++ ": 8, " ++ q "title" ++ ": " ++ q "Dark mode"
  ++ ", " ++ q "state" ++ ": " ++ q "OPEN" ++ "}]".

(** What [json.loads] makes of [two_issues_text]. *)
Definition two_issues : list IssueJson :=
  [{| i_number := Some (VInt 7); i_title := Some (VStr "Login fails");
      i_state := Some (VStr "OPEN");
      i_labels :=
        Some (NotNull [{| l_name := Some (VStr "bug"); l_description := None |};
                       {| l_name := Some (VStr "ui"); l_description := None |}]);
      i_author := Some (NotNull {| a_login := Some (VStr "ann") |});
      i_createdAt := Some (VStr "2025-01-02T03:04:05Z") |};
   {| i_number := Some (VInt 8); i_title := Some (VStr "Dark mode");
      i_state := Some (VStr "OPEN"); i_labels := None; i_author := None;
      i_createdAt := None |}].

(** Two issues, the second written by a deleted account: its author is
    [null]. *)
Definition ghost_text : string :=
  "[{" ++ q "number" ++ ": 7, " ++ q "title" ++ ": " ++ q "Login fails"
  ++ ", " ++ q "state" ++ ": " ++ q "OPEN" ++ "}, {"
  ++ q "number" ++ ": 8, " ++ q "title" ++ ": " ++ q "Dark mode"
  ++ ", " ++ q "state" ++ ": " ++ q "OPEN"
  ++ ", " ++ q "author" ++ ": null}]".

(** What [json.loads] makes of [ghost_text]. *)
Definition ghost_issues : list IssueJson :=
  [{| i_number := Some (VInt 7); i_title := Some (VStr "Login fails");
      i_state := Some (VStr "OPEN"); i_labels := None; i_author := None;
      i_createdAt := None |};
   {| i_number := Some (VInt 8); i_title := Some (VStr "Dark mode");
      i_state := Some (VStr "OPEN"); i_labels := None;
      i_author := Some IsNull; i_createdAt := None |}].

(** A decoder that knows the two texts above and takes any other text for
    something that is not JSON. *)
Definition loads_issues (text : string) : option (list IssueJson) :=
  if String.eqb text two_issues_text then Some two_issues
  else if String.eqb text ghost_text then Some ghost_issues
  else None.

(** Decoders that take no text for JSON. *)
Definition loads_no_labels (text : string) : option (list LabelJson) := None.

Definition loads_no_repo (text : string) : option RepoJson := None.

(** The probe passes and every other invocation prints [text]. *)
Definition prints (text : string) : Env :=
  {| gh_proc := fun _ args =>
       match args with
       | "auth" :: _ => Samples.succeeded
       | _ => {| returncode := 0; stdout := text; stderr := EmptyString |}
       end;
     open_read := Samples.files;
     stdin_read := EmptyString |}.

(** Every invocation fails: no session, no repository. *)
Definition nothing_works : Env :=
  {| gh_proc := fun _ _ =>
       {| returncode := 1; stdout := EmptyString;
          stderr := " not logged in " |};
     open_read := Samples.files;
     stdin_read := EmptyString |}.

(** The probe passes and every other invocation fails. *)
Definition only_probe_works : Env :=
  {| gh_proc := fun _ args =>
       match args with
       | "auth" :: _ => Samples.succeeded
       | _ => {| returncode := 1; stdout := EmptyString;
                 stderr := " rate limit " |}
       end;
     open_read := Samples.files;
     stdin_read := EmptyString |}.

End Replies.

(** A computation that touches neither the backend nor the screen and
    ends with [r], wherever it is run. *)
Definition settles {A} (c : M A) (r : result A) : Prop :=
  forall env tr, c env tr = (r, tr).

(** A computation that settles, with a value or with an exception. *)
Definition quiet {A} (c : M A) : Prop :=
  (exists a, settles c (Ret a)) \/ (exists exn, settles c (Uncaught exn)).

(** * Properties *)

Arguments PyStr.of_int : simpl never.
Arguments Json.dumps : simpl never.

(** ** Stepping through a command *)

(** Unfolds the plumbing of a command and computes as far as the
    surroundings allow. *)
Ltac unfold_command :=
  unfold run, comment, create, close, reopen, edit, comment_final_body,
    edit_final_body, read_body_file, sys_stdin_read, ensure_auth, run_gh,
    output, isinstance, list_name, dict_name, bind, when, raise_Exit, raise,
    ret, rprint, print, emit, authenticated, probe, comment_call in *;
  cbn in *.

(** Decides the next test on a return code. *)
Ltac case_returncode :=
  match goal with
  | H : returncode ?p = 0 |- context [returncode ?p =? 0] =>
      rewrite H; cbn
  | H : returncode ?p <> 0 |- context [returncode ?p =? 0] =>
      destruct (Z.eqb_spec (returncode p) 0); [contradiction | cbn]
  | |- context [returncode ?p =? 0] =>
      let E := fresh "E" in
      destruct (Z.eqb_spec (returncode p) 0) as [E | E]; cbn
  end.

Lemma nonempty_true_iff (s : string) : PyStr.nonempty s = true <-> s <> EmptyString.
Proof. destruct s; cbn; split; congruence. Qed.

Lemma nonempty_false_iff (s : string) : PyStr.nonempty s = false <-> s = EmptyString.
Proof. destruct s; cbn; split; congruence. Qed.

Lemma ensure_auth_passes env :
  authenticated env -> ensure_auth env [] = (Ret tt, [Gh probe]).
Proof. intros Ha. unfold_command. now rewrite Ha. Qed.

(** ** OutputFormatter *)

(** C5.  What the code does where the claim fails.  In human mode [output]
    does not get as far as its notice: after the check-mark line of a
    message, the test [isinstance(data, list)] raises [TypeError], because
    the name [list] stands for the command of line 278 by then; of the
    empty list nothing is shown, neither the notice nor a table, and the
    exception is not caught.  In JSON mode the empty list is printed as the
    empty array, and no notice with it. *)
Theorem output_empty_sequence (msg : string) (env : Env) (tr : list event) :
  output (DList []) human msg env tr
  = (Uncaught "TypeError",
     (tr ++ (if PyStr.nonempty msg then [Rprint (check_mark ++ msg)] else []))%list)
  /\ output (DList []) json msg env tr = (Ret tt, (tr ++ [Print "[]"])%list).
Proof.
  split; [| reflexivity].
  unfold_command. destruct (PyStr.nonempty msg); cbn.
  - reflexivity.
  - now rewrite app_nil_r.
Qed.

(** ** BodyResolver *)

Lemma comment_final_body_stdin body body_file fmt env tr :
  comment_final_body body body_file true fmt env tr
  = (Ret (Some (stdin_read env)), tr).
Proof. reflexivity. Qed.

Lemma comment_final_body_file body path text fmt env tr :
  PyStr.nonempty path = true ->
  open_read env path = FileText text ->
  comment_final_body body (Some path) false fmt env tr = (Ret (Some text), tr).
Proof. intros Hp Hf. unfold_command. now rewrite Hp; cbn; rewrite Hf. Qed.

Lemma comment_final_body_inline body body_file fmt env tr :
  PyStr.truthy body_file = false ->
  comment_final_body body body_file false fmt env tr = (Ret body, tr).
Proof.
  intros Hf. unfold_command. destruct body_file as [path |]; [| reflexivity].
  cbn in Hf. now rewrite Hf.
Qed.

(** What [comment] asks of the backend when [--stdin] is set: the probe
    and then, at most, one comment that carries standard input. *)
Lemma comment_stdin_calls env issue_number body body_file fmt :
  gh_calls (trace (run (comment issue_number body body_file true fmt) env))
  = if decide (authenticated env /\ stdin_read env <> EmptyString)
    then [probe; comment_call issue_number (stdin_read env)]
    else [probe].
Proof.
  destruct (decide _) as [[Ha Hs] | Hn].
  - apply nonempty_true_iff in Hs. unfold_command. rewrite Ha; cbn.
    rewrite Hs; cbn. case_returncode; destruct fmt; reflexivity.
  - unfold_command. case_returncode; [| reflexivity].
    destruct (PyStr.nonempty (stdin_read env)) eqn:Hs; cbn.
    + exfalso. apply Hn. split; [assumption |]. now apply nonempty_true_iff.
    + destruct fmt; reflexivity.
Qed.

(** C1.  With [--stdin] set, whatever [--body] and [--body-file] say, the
    body [comment] resolves is the text of standard input, and the backend
    is asked for nothing but the probe followed by a comment carrying that
    text; it is asked for exactly that when the probe passes and standard
    input is not empty.  Without [--stdin], a given file that can be read
    provides the body, and without a file the inline text does. *)
Theorem comment_body_precedence (env : Env) (issue_number : Z)
    (body body_file : option string) (fmt : OutputFormat) :
  (forall tr, comment_final_body body body_file true fmt env tr
              = (Ret (Some (stdin_read env)), tr))
  /\ gh_calls (trace (run (comment issue_number body body_file true fmt) env))
       `prefix_of` [probe; comment_call issue_number (stdin_read env)]
  /\ (authenticated env -> stdin_read env <> EmptyString ->
      gh_calls (trace (run (comment issue_number body body_file true fmt) env))
      = [probe; comment_call issue_number (stdin_read env)])
  /\ (forall path text tr,
        PyStr.nonempty path = true -> open_read env path = FileText text ->
        comment_final_body body (Some path) false fmt env tr
        = (Ret (Some text), tr))
  /\ (forall tr,
        PyStr.truthy body_file = false ->
        comment_final_body body body_file false fmt env tr = (Ret body, tr)).
Proof.
  repeat split.
  - rewrite comment_stdin_calls. destruct (decide _).
    + reflexivity.
    + now exists [comment_call issue_number (stdin_read env)].
  - intros Ha Hs. rewrite comment_stdin_calls.
    destruct (decide _) as [| Hn]; [reflexivity | tauto].
  - intros. now apply comment_final_body_file.
  - intros. now apply comment_final_body_inline.
Qed.

(** All three sources given on [Samples.logged_in]: standard input wins. *)
Lemma comment_body_precedence_witness :
  authenticated Samples.logged_in
  /\ stdin_read Samples.logged_in <> EmptyString
  /\ gh_calls (trace (run (comment 42 (Some "inline") (Some "notes.md") true json)
                          Samples.logged_in))
     = [["auth"; "status"]; ["issue"; "comment"; "42"; "--body"; "from stdin"]].
Proof.
  split; [reflexivity | split; [discriminate |]].
  apply (comment_body_precedence Samples.logged_in 42 (Some "inline")
           (Some "notes.md") json); [reflexivity | discriminate].
Defined.

(** ** TemplateEngine *)

Lemma template_prefix_bug : template_prefix bug = "[Bug]".
Proof. reflexivity. Qed.

Lemma template_labels_bug : template_labels bug = ["bug"].
Proof. reflexivity. Qed.

Lemma create_final_title_bug title :
  create_final_title title (Some bug) = PyStr.strip ("[Bug] " ++ title).
Proof. unfold create_final_title. cbn [is_custom negb]. now rewrite template_prefix_bug. Qed.

Lemma label_args_elem label final_labels :
  label ∈ final_labels ->
  exists before after,
    label_args final_labels
    = (before ++ ["--label"; PyStr.strip label] ++ after)%list.
Proof.
  intros Hin. unfold label_args.
  assert (Hel : label ∈ elements (list_to_set final_labels : gset string))
    by now apply elem_of_elements, elem_of_list_to_set.
  apply list_elem_of_split in Hel as (l1 & l2 & ->).
  rewrite flat_map_app. cbn [flat_map]. eauto.
Qed.

(** What [create] asks of the backend. *)
Lemma create_calls env title body body_file issue_type labels assignee fmt :
  gh_calls (trace (run (create title body body_file issue_type labels assignee
                               fmt) env))
  = if decide (authenticated env) then
      match body_file with
      | Some path =>
          if PyStr.nonempty path then
            match open_read env path with
            | FileText text =>
                [probe;
                 create_args (create_final_title title issue_type) text
                   (create_final_labels labels issue_type) assignee]
            | _ => [probe]
            end
          else
            [probe;
             create_args (create_final_title title issue_type) (or_empty body)
               (create_final_labels labels issue_type) assignee]
      | None =>
          [probe;
           create_args (create_final_title title issue_type) (or_empty body)
             (create_final_labels labels issue_type) assignee]
      end
    else [probe].
Proof.
  destruct (decide _) as [Ha | Hn].
  - unfold_command. rewrite Ha; cbn.
    destruct body_file as [path |]; cbn.
    + destruct (PyStr.nonempty path); cbn.
      * destruct (open_read env path); cbn.
        -- case_returncode; destruct fmt; cbn;
             try destruct (PyStr.nonempty _); reflexivity.
        -- destruct fmt; reflexivity.
        -- reflexivity.
      * case_returncode; destruct fmt; cbn;
          try destruct (PyStr.nonempty _); reflexivity.
    + case_returncode; destruct fmt; cbn;
        try destruct (PyStr.nonempty _); reflexivity.
  - unfold_command. case_returncode. reflexivity.
Qed.

(** C3.  For the type tag [bug], the title [create] builds is "[Bug] "
    followed by the given title, stripped, and the labels it walks hold
    "bug" whatever the caller's labels are, so that [--label bug] is among
    the arguments.  The backend is asked for nothing but the probe and a
    creation with that title and those labels, and is asked for exactly that
    when the probe passes and no body file is given.  For the title
    "Login fails" without labels the creation carries the title
    "[Bug] Login fails" and the single label "bug". *)
Theorem create_bug_template (env : Env) (title : string)
    (body body_file labels assignee : option string) (fmt : OutputFormat) :
  create_final_title title (Some bug) = PyStr.strip ("[Bug] " ++ title)
  /\ (exists before after,
        label_args (create_final_labels labels (Some bug))
        = (before ++ ["--label"; "bug"] ++ after)%list)
  /\ (forall args,
        args ∈ gh_calls (trace (run (create title body body_file (Some bug)
                                            labels assignee fmt) env)) ->
        args = probe
        \/ exists final_body,
             args = create_args (PyStr.strip ("[Bug] " ++ title)) final_body
                      (create_final_labels labels (Some bug)) assignee)
  /\ (authenticated env -> PyStr.truthy body_file = false ->
      gh_calls (trace (run (create title body body_file (Some bug) labels
                                   assignee fmt) env))
      = [probe;
         create_args (PyStr.strip ("[Bug] " ++ title)) (or_empty body)
           (create_final_labels labels (Some bug)) assignee])
  /\ (authenticated env ->
      gh_calls (trace (run (create "Login fails" None None (Some bug) None None
                                   fmt) env))
      = [probe;
         ["issue"; "create"; "--title"; "[Bug] Login fails";
          "--body"; EmptyString; "--label"; "bug"]]).
Proof.
  split; [apply create_final_title_bug |].
  split.
  { apply (label_args_elem "bug").
    unfold create_final_labels. cbn [is_custom negb].
    rewrite template_labels_bug. apply elem_of_app. right. apply list_elem_of_singleton.
    reflexivity. }
  split.
  { intros args. rewrite create_calls, create_final_title_bug.
    destruct (decide _); [| intros ->%list_elem_of_singleton; now left].
    destruct body_file as [path |];
      [destruct (PyStr.nonempty path); [destruct (open_read env path) |] |];
      intros Hin;
      repeat (apply elem_of_cons in Hin as [-> | Hin]; [eauto |]);
      now apply elem_of_nil in Hin. }
  split.
  { intros Ha Hf. rewrite create_calls, create_final_title_bug.
    destruct (decide _); [| contradiction].
    destruct body_file as [path |]; [| reflexivity].
    cbn in Hf. now rewrite Hf. }
  intros Ha. rewrite create_calls.
  destruct (decide _); [reflexivity | contradiction].
Qed.

(** The example of the specification on [Samples.logged_in]. *)
Lemma create_bug_template_witness :
  authenticated Samples.logged_in
  /\ gh_calls (trace (run (create "Login fails" None None (Some bug) None None
                                  json) Samples.logged_in))
     = [["auth"; "status"];
        ["issue"; "create"; "--title"; "[Bug] Login fails";
         "--body"; EmptyString; "--label"; "bug"]].
Proof.
  split; [reflexivity |].
  apply (create_bug_template Samples.logged_in "Login fails" None None None None
           json).
  reflexivity.
Defined.

(** ** CommandRouter: comment *)

Lemma comment_resolves_inv env body body_file body_stdin fmt final_body :
  comment_resolves env body body_file body_stdin fmt final_body ->
  authenticated env
  /\ forall tr, comment_final_body body body_file body_stdin fmt env tr
                = (Ret final_body, tr).
Proof.
  unfold comment_resolves. intros Hres. unfold_command.
  destruct (Z.eqb_spec (returncode (gh_proc env [] ["auth"; "status"])) 0)
    as [Ha | Hn]; cbn in Hres; [| discriminate].
  split; [assumption |]. intros tr.
  destruct body_stdin; cbn in *.
  - now injection Hres as <-.
  - destruct body_file as [path |]; cbn in *.
    + destruct (PyStr.nonempty path); cbn in *.
      * destruct (open_read env path); cbn in *.
        -- now injection Hres as <-.
        -- destruct fmt; discriminate.
        -- discriminate.
      * now injection Hres as <-.
    + now injection Hres as <-.
Qed.

(** C9.  What the code does where the claim fails.  When the body an
    invocation of [comment] resolves is the empty string, whichever source
    it came from, the command asks the backend for no comment (the probe is
    its only call), ends with status 1, and runs as it does with no body
    source at all.  With [--output json] it prints the "No body provided"
    error record.  In human mode it shows nothing: [output] raises
    [TypeError] before the error line, and the status 1 is that of the
    uncaught exception. *)
Theorem comment_empty_body (env : Env) (issue_number : Z)
    (body body_file : option string) (body_stdin : bool) (fmt : OutputFormat) :
  comment_resolves env body body_file body_stdin fmt (Some EmptyString) ->
  run (comment issue_number body body_file body_stdin fmt) env
  = {| status := 1;
       trace :=
         Gh probe
         :: match fmt with
            | json => [Print (Json.dumps (error_record no_body_message))]
            | human => []
            end |}
  /\ gh_calls (trace (run (comment issue_number body body_file body_stdin fmt)
                          env)) = [probe]
  /\ run (comment issue_number body body_file body_stdin fmt) env
     = run (comment issue_number None None false fmt) env.
Proof.
  intros [Ha Hres]%comment_resolves_inv.
  assert (Hnone : run (comment issue_number None None false fmt) env
                  = {| status := 1;
                       trace :=
                         Gh probe
                         :: match fmt with
                            | json =>
                                [Print (Json.dumps (error_record no_body_message))]
                            | human => []
                            end |}).
  { unfold_command. rewrite Ha; cbn. destruct fmt; reflexivity. }
  assert (Hrun : run (comment issue_number body body_file body_stdin fmt) env
                 = {| status := 1;
                      trace :=
                        Gh probe
                        :: match fmt with
                           | json =>
                               [Print (Json.dumps (error_record no_body_message))]
                           | human => []
                           end |}).
  { unfold run, comment, bind.
    rewrite (ensure_auth_passes env Ha), Hres. cbn.
    unfold_command. destruct fmt; reflexivity. }
  split; [exact Hrun |]. split.
  - rewrite Hrun. destruct fmt; reflexivity.
  - now rewrite Hrun, Hnone.
Qed.

(** An empty standard input with [--output json], and an existing empty
    file in human mode, on sessions whose probe passes. *)
Lemma comment_empty_body_witness :
  (run (comment 42 (Some "inline") None true json) Samples.logged_in_empty_stdin
   = {| status := 1;
        trace := [Gh ["auth"; "status"];
                  Print (Json.dumps (DDict [("error", VStr no_body_message)]))] |})
  /\ (run (comment 42 (Some "inline") (Some "empty.md") false human)
          Samples.logged_in
      = {| status := 1; trace := [Gh ["auth"; "status"]] |}).
Proof.
  split.
  - apply (comment_empty_body Samples.logged_in_empty_stdin 42 (Some "inline")
             None true json); reflexivity.
  - apply (comment_empty_body Samples.logged_in 42 (Some "inline")
             (Some "empty.md") false human); reflexivity.
Defined.

(** ** CommandRouter: a body file that does not exist *)

Lemma file_not_found_is_not_no_body path :
  "File not found: " ++ path <> no_body_message.
Proof. cbn. discriminate. Qed.

(** C2, as amended.  For [create] and [edit], and for [comment] without
    [--stdin], run past the probe with a non-empty [--body-file] path that
    does not exist: in either format the command asks the backend for
    nothing after the probe, so the inline body is not sent in place of the
    file, and ends with status 1; with [--output json] it prints the record
    [{"error": "File not found: <path>"}], which is not the
    "No body provided" error. *)
Theorem body_file_not_found (env : Env) (path : string) (fmt : OutputFormat) :
  authenticated env ->
  path <> EmptyString ->
  open_read env path = FileNotFoundError ->
  let stopped (o : outcome) := status o = 1 /\ gh_calls (trace o) = [probe] in
  let not_found :=
    {| status := 1;
       trace := [Gh probe;
                 Print (Json.dumps (error_record ("File not found: " ++ path)))] |} in
  (forall title body issue_type labels assignee,
     stopped (run (create title body (Some path) issue_type labels assignee fmt)
                  env)
     /\ run (create title body (Some path) issue_type labels assignee json) env
        = not_found)
  /\ (forall issue_number body,
        stopped (run (comment issue_number body (Some path) false fmt) env)
        /\ run (comment issue_number body (Some path) false json) env
           = not_found)
  /\ (forall issue_number title body add_labels remove_labels add_assignee,
        stopped (run (edit issue_number title body (Some path) add_labels
                           remove_labels add_assignee fmt) env)
        /\ run (edit issue_number title body (Some path) add_labels
                     remove_labels add_assignee json) env
           = not_found)
  /\ "File not found: " ++ path <> no_body_message.
Proof.
  intros Ha Hp%nonempty_true_iff Hf. cbn zeta.
  repeat apply conj; intros; repeat apply conj;
    try (unfold error_record; unfold_command; rewrite Ha; cbn; rewrite Hp; cbn;
         rewrite Hf; cbn; destruct fmt; reflexivity).
  apply file_not_found_is_not_no_body.
Qed.

(** [missing.md] does not exist on [Samples.logged_in]. *)
Lemma body_file_not_found_witness :
  authenticated Samples.logged_in
  /\ open_read Samples.logged_in "missing.md" = FileNotFoundError
  /\ status (run (edit 42 None (Some "inline") (Some "missing.md") None None
                       None human) Samples.logged_in) = 1
  /\ gh_calls (trace (run (edit 42 None (Some "inline") (Some "missing.md")
                               None None None human) Samples.logged_in))
     = [["auth"; "status"]]
  /\ run (edit 42 None (Some "inline") (Some "missing.md") None None None json)
         Samples.logged_in
     = {| status := 1;
          trace := [Gh ["auth"; "status"];
                    Print (Json.dumps
                             (DDict [("error",
                                      VStr "File not found: missing.md")]))] |}.
Proof.
  split; [reflexivity | split; [reflexivity |]].
  destruct (body_file_not_found Samples.logged_in "missing.md" human)
    as (_ & _ & Hedit & _); [reflexivity | discriminate | reflexivity |].
  destruct (Hedit 42 None (Some "inline") None None None)
    as ((Hstatus & Hcalls) & Hjson).
  split; [exact Hstatus | split; [exact Hcalls | exact Hjson]].
Defined.

(** C2 fails as stated.  [comment] with [--stdin] never opens the file, so
    a path that does not exist goes unnoticed: the text of standard input is
    sent to the backend and the command ends with status 0.  And a path
    given as the empty string counts as no path: [edit] falls back on the
    inline body and sends it. *)
Lemma body_file_missing_counterexample :
  open_read Samples.logged_in "missing.md" = FileNotFoundError
  /\ run (comment 42 (Some "inline") (Some "missing.md") true json)
         Samples.logged_in
     = {| status := 0;
          trace := [Gh ["auth"; "status"];
                    Gh ["issue"; "comment"; "42"; "--body"; "from stdin"];
                    Print (Json.dumps
                             (DDict [("success", VBool true);
                                     ("issue_number", VInt 42);
                                     ("action", VStr "commented")]))] |}
  /\ open_read Samples.logged_in EmptyString = FileNotFoundError
  /\ run (edit 42 None (Some "inline") (Some EmptyString) None None None json)
         Samples.logged_in
     = {| status := 0;
          trace := [Gh ["auth"; "status"];
                    Gh ["issue"; "edit"; "42"; "--body"; "inline"];
                    Print (Json.dumps
                             (DDict [("success", VBool true);
                                     ("issue_number", VInt 42);
                                     ("action", VStr "edited")]))] |}.
Proof. repeat split; reflexivity. Qed.

(** ** CommandRouter: edit *)

(** What the no-op path of [edit] leaves behind. *)
Lemma edit_nothing_to_do env issue_number fmt :
  authenticated env ->
  run (edit issue_number None None None None None None fmt) env
  = {| status := 0; trace := [Gh probe; Rprint no_changes_notice] |}.
Proof. intros Ha. unfold_command. now rewrite Ha. Qed.

(** C6, as amended.  An [edit] that passes the probe and sets no mutating
    option shows the "No changes specified" notice, ends with status 0 and
    asks the backend for nothing but the probe: no [gh issue edit] runs. *)
Theorem edit_no_changes (env : Env) (issue_number : Z) (fmt : OutputFormat) :
  authenticated env ->
  run (edit issue_number None None None None None None fmt) env
  = {| status := 0; trace := [Gh probe; Rprint no_changes_notice] |}
  /\ gh_calls (trace (run (edit issue_number None None None None None None fmt)
                          env)) = [probe].
Proof.
  intros Ha. rewrite edit_nothing_to_do by assumption. now split.
Qed.

Lemma edit_no_changes_witness :
  authenticated Samples.logged_in
  /\ run (edit 42 None None None None None None human) Samples.logged_in
     = {| status := 0;
          trace := [Gh ["auth"; "status"];
                    Rprint "[yellow]No changes specified.[/yellow]"] |}.
Proof.
  split; [reflexivity |].
  apply (edit_no_changes Samples.logged_in 42 human). reflexivity.
Defined.

(** C6 fails as stated: when the probe fails, [ensure_auth] ends the same
    invocation with status 1 before [edit] looks at its options. *)
Lemma edit_no_changes_counterexample :
  run (edit 42 None None None None None None human) Samples.logged_out
  = {| status := 1;
       trace := [Gh ["auth"; "status"];
                 Rprint "[red]Error:[/red] gh not authenticated. Run: gh auth login"] |}.
Proof. reflexivity. Qed.

Lemma edit_resolves_inv env body body_file fmt final_body :
  edit_resolves env body body_file fmt final_body ->
  authenticated env
  /\ forall tr, edit_final_body body body_file fmt env tr = (Ret final_body, tr).
Proof.
  unfold edit_resolves. intros Hres. unfold_command.
  destruct (Z.eqb_spec (returncode (gh_proc env [] ["auth"; "status"])) 0)
    as [Ha | Hn]; cbn in Hres; [| discriminate].
  split; [assumption |]. intros tr.
  destruct body_file as [path |]; cbn in *.
  - destruct (PyStr.nonempty path); cbn in *.
    + destruct (open_read env path); cbn in *.
      * now injection Hres as <-.
      * destruct fmt; discriminate.
      * discriminate.
    + now injection Hres as <-.
  - now injection Hres as <-.
Qed.

(** C10, as amended.  For an [edit] whose body resolves to the empty string
    (an empty [--body], or a [--body-file] that exists and is empty): with
    no other option the command takes the "No changes specified" path, ends
    with status 0 and asks the backend for nothing but the probe, as the
    run without any body does; with other options the run is that of the
    same invocation without a body, so an empty [--body] is never sent. *)
Theorem edit_empty_body (env : Env) (issue_number : Z)
    (body body_file : option string) (fmt : OutputFormat) :
  edit_resolves env body body_file fmt (Some EmptyString) ->
  run (edit issue_number None body body_file None None None fmt) env
  = {| status := 0; trace := [Gh probe; Rprint no_changes_notice] |}
  /\ run (edit issue_number None body body_file None None None fmt) env
     = run (edit issue_number None None None None None None fmt) env
  /\ gh_calls (trace (run (edit issue_number None body body_file None None None
                                fmt) env)) = [probe]
  /\ (forall title add_labels remove_labels add_assignee,
        run (edit issue_number title body body_file add_labels remove_labels
                  add_assignee fmt) env
        = run (edit issue_number title None None add_labels remove_labels
                    add_assignee fmt) env).
Proof.
  intros [Ha Hres]%edit_resolves_inv.
  assert (Hsame : forall title add_labels remove_labels add_assignee,
             run (edit issue_number title body body_file add_labels
                       remove_labels add_assignee fmt) env
             = run (edit issue_number title None None add_labels remove_labels
                         add_assignee fmt) env).
  { intros. unfold run, edit, bind.
    rewrite (ensure_auth_passes env Ha), Hres. reflexivity. }
  rewrite Hsame, edit_nothing_to_do by assumption.
  repeat split. apply Hsame.
Qed.

(** An empty inline body and an existing empty file on [Samples.logged_in]. *)
Lemma edit_empty_body_witness :
  authenticated Samples.logged_in
  /\ run (edit 42 None (Some EmptyString) None None None None json)
         Samples.logged_in
     = {| status := 0;
          trace := [Gh ["auth"; "status"];
                    Rprint "[yellow]No changes specified.[/yellow]"] |}
  /\ run (edit 42 None (Some "inline") (Some "empty.md") None None None json)
         Samples.logged_in
     = {| status := 0;
          trace := [Gh ["auth"; "status"];
                    Rprint "[yellow]No changes specified.[/yellow]"] |}.
Proof.
  split; [reflexivity | split].
  - apply (edit_empty_body Samples.logged_in 42 (Some EmptyString) None json);
      reflexivity.
  - apply (edit_empty_body Samples.logged_in 42 (Some "inline")
             (Some "empty.md") json); reflexivity.
Defined.

(** C10 fails as stated: an [edit] whose only option is an empty [--body]
    does invoke the backend, once, for [gh auth status]. *)
Lemma edit_empty_body_counterexample :
  edit_resolves Samples.logged_in (Some EmptyString) None json
    (Some EmptyString)
  /\ gh_calls (trace (run (edit 42 None (Some EmptyString) None None None None
                                json) Samples.logged_in))
     = [["auth"; "status"]].
Proof. split; reflexivity. Qed.

(** ** CommandRouter: close and reopen *)

(** What [close] and [reopen] ask of the backend, in either format. *)
Lemma close_calls env issue_number note reason fmt :
  authenticated env ->
  gh_calls (trace (run (close issue_number note reason fmt) env))
  = (probe :: (if PyStr.truthy note
               then [comment_call issue_number (or_empty note)] else [])
     ++ [close_call issue_number reason])%list.
Proof.
  intros Ha. unfold close_call. unfold_command. rewrite Ha; cbn.
  destruct note as [text |]; cbn;
    [destruct (PyStr.nonempty text); cbn |];
    case_returncode; destruct fmt; reflexivity.
Qed.

Lemma reopen_calls env issue_number note fmt :
  authenticated env ->
  gh_calls (trace (run (reopen issue_number note fmt) env))
  = (probe :: (if PyStr.truthy note
               then [comment_call issue_number (or_empty note)] else [])
     ++ [reopen_call issue_number])%list.
Proof.
  intros Ha. unfold reopen_call. unfold_command. rewrite Ha; cbn.
  destruct note as [text |]; cbn;
    [destruct (PyStr.nonempty text); cbn |];
    case_returncode; destruct fmt; reflexivity.
Qed.

(** The run of [close] with [--output json]. *)
Lemma close_run_json env issue_number note reason :
  authenticated env ->
  let history :=
    probe :: (if PyStr.truthy note
              then [comment_call issue_number (or_empty note)] else []) in
  let closed := gh_proc env history (close_call issue_number reason) in
  run (close issue_number note reason json) env
  = {| status := if returncode closed =? 0 then 0 else 1;
       trace :=
         map Gh (history ++ [close_call issue_number reason])
         ++ [Print
               (Json.dumps
                  (if returncode closed =? 0
                   then DDict [("success", VBool true);
                               ("issue_number", VInt issue_number);
                               ("reason", VStr reason)]
                   else error_record
                          ("Failed to close #" ++ PyStr.of_int issue_number)))] |}.
Proof.
  intros Ha. unfold close_call, error_record. unfold_command. rewrite Ha; cbn.
  destruct note as [text |]; cbn;
    [destruct (PyStr.nonempty text); cbn |];
    case_returncode; reflexivity.
Qed.

Lemma reopen_run_json env issue_number note :
  authenticated env ->
  let history :=
    probe :: (if PyStr.truthy note
              then [comment_call issue_number (or_empty note)] else []) in
  let reopened := gh_proc env history (reopen_call issue_number) in
  run (reopen issue_number note json) env
  = {| status := if returncode reopened =? 0 then 0 else 1;
       trace :=
         map Gh (history ++ [reopen_call issue_number])
         ++ [Print
               (Json.dumps
                  (if returncode reopened =? 0
                   then DDict [("success", VBool true);
                               ("issue_number", VInt issue_number);
                               ("action", VStr "reopened")]
                   else error_record
                          ("Failed to reopen #" ++ PyStr.of_int issue_number)))] |}.
Proof.
  intros Ha. unfold reopen_call, error_record. unfold_command. rewrite Ha; cbn.
  destruct note as [text |]; cbn;
    [destruct (PyStr.nonempty text); cbn |];
    case_returncode; reflexivity.
Qed.

(** C7, as amended.  For a [close] or [reopen] that passes the probe and is
    given a non-empty comment: in either format the backend is asked for the
    probe, then the comment, then the close (or reopen), in that order, and
    the answer to the comment is never looked at.  With [--output json] the
    status is 0 exactly when the close (or reopen) step returns 0 and is 1
    otherwise, and what is printed is the success record or the failure
    record accordingly. *)
Theorem close_reopen_comment_first (env : Env) (issue_number : Z)
    (text reason : string) (fmt : OutputFormat) :
  authenticated env ->
  text <> EmptyString ->
  let history := [probe; comment_call issue_number text] in
  let closed := gh_proc env history (close_call issue_number reason) in
  let reopened := gh_proc env history (reopen_call issue_number) in
  gh_calls (trace (run (close issue_number (Some text) reason fmt) env))
  = (history ++ [close_call issue_number reason])%list
  /\ gh_calls (trace (run (reopen issue_number (Some text) fmt) env))
     = (history ++ [reopen_call issue_number])%list
  /\ run (close issue_number (Some text) reason json) env
     = {| status := if returncode closed =? 0 then 0 else 1;
          trace :=
            [Gh probe; Gh (comment_call issue_number text);
             Gh (close_call issue_number reason);
             Print
               (Json.dumps
                  (if returncode closed =? 0
                   then DDict [("success", VBool true);
                               ("issue_number", VInt issue_number);
                               ("reason", VStr reason)]
                   else error_record
                          ("Failed to close #" ++ PyStr.of_int issue_number)))] |}
  /\ run (reopen issue_number (Some text) json) env
     = {| status := if returncode reopened =? 0 then 0 else 1;
          trace :=
            [Gh probe; Gh (comment_call issue_number text);
             Gh (reopen_call issue_number);
             Print
               (Json.dumps
                  (if returncode reopened =? 0
                   then DDict [("success", VBool true);
                               ("issue_number", VInt issue_number);
                               ("action", VStr "reopened")]
                   else error_record
                          ("Failed to reopen #"
                           ++ PyStr.of_int issue_number)))] |}.
Proof.
  intros Ha Ht%nonempty_true_iff history closed reopened.
  rewrite close_calls, reopen_calls, close_run_json, reopen_run_json
    by assumption.
  cbn [PyStr.truthy or_empty default]. rewrite Ht. repeat split.
Qed.

(** On [Samples.comments_refused] the comment step fails and the close and
    reopen steps succeed: with [--output json] both commands end with
    status 0. *)
Lemma close_reopen_comment_first_witness :
  authenticated Samples.comments_refused
  /\ returncode (gh_proc Samples.comments_refused [probe]
                         (comment_call 42 "Fixed")) = 1
  /\ gh_calls (trace (run (close 42 (Some "Fixed") "completed" human)
                          Samples.comments_refused))
     = [["auth"; "status"];
        ["issue"; "comment"; "42"; "--body"; "Fixed"];
        ["issue"; "close"; "42"; "--reason"; "completed"]]
  /\ status (run (close 42 (Some "Fixed") "completed" json)
                 Samples.comments_refused) = 0
  /\ status (run (reopen 42 (Some "Fixed") json) Samples.comments_refused) = 0.
Proof.
  split; [reflexivity | split; [reflexivity |]].
  pose proof (close_reopen_comment_first Samples.comments_refused 42 "Fixed"
                "completed" human) as H.
  destruct H as (Hcalls & _ & Hclose & Hreopen);
    [reflexivity | discriminate |].
  split; [exact Hcalls |].
  split; [now rewrite Hclose | now rewrite Hreopen].
Defined.

(** C7 fails as stated.  When the probe fails, a [close] given a comment
    asks the backend for neither the comment nor the close and the status 1
    comes from the probe; and a comment given as the empty string is not
    sent at all. *)
Lemma close_reopen_comment_first_counterexample :
  run (close 42 (Some "Fixed") "completed" json) Samples.logged_out
  = {| status := 1;
       trace := [Gh ["auth"; "status"];
                 Rprint "[red]Error:[/red] gh not authenticated. Run: gh auth login"] |}
  /\ gh_calls (trace (run (reopen 42 (Some EmptyString) json) Samples.logged_in))
     = [["auth"; "status"]; ["issue"; "reopen"; "42"]].
Proof. split; reflexivity. Qed.

(** C8.  What the code does where the claim fails.  [--reason] is taken as
    free text: a [close] that passes the probe hands the reason it was
    given, whatever it is, to the backend as the argument of [--reason],
    after the comment if there is one; nothing is rejected before the
    backend is asked.  With [--output json] the command ends with status 0
    exactly when the backend's close step returns 0. *)
Theorem close_reason_passed_through (env : Env) (issue_number : Z)
    (comment : option string) (reason : string) (fmt : OutputFormat) :
  authenticated env ->
  let history :=
    probe :: (if PyStr.truthy comment
              then [comment_call issue_number (or_empty comment)] else []) in
  gh_calls (trace (run (close issue_number comment reason fmt) env))
  = (history ++ [["issue"; "close"; PyStr.of_int issue_number;
                  "--reason"; reason]])%list
  /\ status (run (close issue_number comment reason json) env)
     = (if returncode (gh_proc env history (close_call issue_number reason))
           =? 0
        then 0 else 1).
Proof.
  intros Ha history.
  rewrite close_calls, close_run_json by assumption. now split.
Qed.

(** The reason "wontfix" on [Samples.logged_in]. *)
Lemma close_reason_passed_through_witness :
  authenticated Samples.logged_in
  /\ gh_calls (trace (run (close 42 None "wontfix" json) Samples.logged_in))
     = [["auth"; "status"]; ["issue"; "close"; "42"; "--reason"; "wontfix"]]
  /\ status (run (close 42 None "wontfix" json) Samples.logged_in) = 0.
Proof.
  split; [reflexivity |].
  apply (close_reason_passed_through Samples.logged_in 42 None "wontfix" json).
  reflexivity.
Defined.

(** ** The chosen format and the two direct prints *)

Lemma blocked_by_probe env (c : M unit) :
  ~ authenticated env ->
  run (ensure_auth >>; c) env
  = {| status := 1;
       trace := [Gh probe;
                 Rprint "[red]Error:[/red] gh not authenticated. Run: gh auth login"] |}.
Proof. intros Hn. unfold_command. case_returncode. reflexivity. Qed.

(** C4.  What the code does where the claim fails.  With [--output json],
    an [edit] without changes that passes the probe shows its notice as a
    line of rich markup and prints no JSON document; and every command
    stopped by the probe shows the authentication error as a line of rich
    markup, again whatever the format. *)
Theorem format_not_applied (env : Env) (issue_number : Z) (fmt : OutputFormat) :
  (authenticated env ->
   run (edit issue_number None None None None None None fmt) env
   = {| status := 0; trace := [Gh probe; Rprint no_changes_notice] |})
  /\ (~ authenticated env ->
      forall title body body_file issue_type labels assignee note reason
             body_stdin add_labels remove_labels add_assignee,
        let blocked :=
          {| status := 1;
             trace := [Gh probe;
                       Rprint "[red]Error:[/red] gh not authenticated. Run: gh auth login"] |} in
        run (create title body body_file issue_type labels assignee fmt) env
        = blocked
        /\ run (close issue_number note reason fmt) env = blocked
        /\ run (reopen issue_number note fmt) env = blocked
        /\ run (comment issue_number body body_file body_stdin fmt) env
           = blocked
        /\ run (edit issue_number (Some title) body body_file add_labels
                     remove_labels add_assignee fmt) env = blocked).
Proof.
  split.
  - intros Ha. unfold_command. now rewrite Ha.
  - intros Hn **. repeat split; now apply blocked_by_probe.
Qed.

(** [edit 42 --output json] on a session whose probe passes, and
    [comment 42 --body hello --output json] on one whose probe fails. *)
Lemma format_not_applied_witness :
  run (edit 42 None None None None None None json) Samples.logged_in
  = {| status := 0;
       trace := [Gh ["auth"; "status"];
                 Rprint "[yellow]No changes specified.[/yellow]"] |}
  /\ run (comment 42 (Some "hello") None false json) Samples.logged_out
     = {| status := 1;
          trace := [Gh ["auth"; "status"];
                    Rprint "[red]Error:[/red] gh not authenticated. Run: gh auth login"] |}.
Proof.
  split.
  - apply (format_not_applied Samples.logged_in 42 json). reflexivity.
  - pose proof (format_not_applied Samples.logged_out 42 json) as [_ Hblocked].
    apply (Hblocked ltac:(discriminate) "t" (Some "hello") None None None None
             None "completed" false None None None).
Defined.

(** * More properties of the commands *)

(** ** output *)

Lemma output_json (x : data) (msg : string) env tr :
  output x json msg env tr = (Ret tt, (tr ++ [Print (Json.dumps x)])%list).
Proof. reflexivity. Qed.

Lemma output_human (x : data) (msg : string) env tr :
  output x human msg env tr
  = (Uncaught "TypeError",
     (tr ++ (if PyStr.nonempty msg then [Rprint (check_mark ++ msg)] else []))%list).
Proof.
  unfold_command. destruct (PyStr.nonempty msg); cbn.
  - reflexivity.
  - now rewrite app_nil_r.
Qed.

(** X1.  In JSON mode [output] prints the one document, whatever the
    message, and returns.  In human mode it never shows the record, list or
    dict: it prints the check-mark line when a message is given and then
    dies of the [TypeError] that [isinstance(data, list)] raises, the name
    [list] being the command by then.  In neither mode does it ask the
    backend for anything. *)
Theorem output_by_format (x : data) (msg : string) (env : Env)
    (tr : list event) :
  output x json msg env tr = (Ret tt, (tr ++ [Print (Json.dumps x)])%list)
  /\ output x human msg env tr
     = (Uncaught "TypeError",
        (tr ++ (if PyStr.nonempty msg
                then [Rprint (check_mark ++ msg)] else []))%list)
  /\ (forall fmt, gh_calls (snd (output x fmt msg env tr)) = gh_calls tr).
Proof.
  split; [apply output_json | split; [apply output_human |]].
  intros [|]; [rewrite output_human | rewrite output_json]; cbn [snd];
    unfold gh_calls; rewrite omap_app; cbn;
    [destruct (PyStr.nonempty msg) |]; cbn; apply app_nil_r.
Qed.

(** ** Every command *)

(** Splits on the next thing a command tests: a return code, the truth of
    a string, what a file holds, or an argument. *)
Ltac case_next :=
  match goal with
  | |- context [returncode ?p =? 0] => destruct (returncode p =? 0); cbn
  | |- context [PyStr.nonempty ?s] => destruct (PyStr.nonempty s); cbn
  | |- context [PyStr.truthy ?o] => destruct (PyStr.truthy o); cbn
  | |- context [Nat.eqb ?a ?b] => destruct (Nat.eqb a b); cbn
  | |- context [open_read ?e ?p] => destruct (open_read e p); cbn
  | |- context [match ?x with _ => _ end] => is_var x; destruct x; cbn
  end.

(** X2.  Whatever the surroundings and the arguments, a run of [create],
    [close], [reopen], [comment] or [edit] asks the backend for the probe
    before it does anything else, and ends with status 0 or 1. *)
Theorem commands_orderly (env : Env) (fmt : OutputFormat) (issue_number : Z)
    (title reason : string)
    (body body_file labels assignee note opt_title add_labels remove_labels
       add_assignee : option string)
    (issue_type : option IssueType) (body_stdin : bool) :
  orderly (run (create title body body_file issue_type labels assignee fmt) env)
  /\ orderly (run (close issue_number note reason fmt) env)
  /\ orderly (run (reopen issue_number note fmt) env)
  /\ orderly (run (comment issue_number body body_file body_stdin fmt) env)
  /\ orderly (run (edit issue_number opt_title body body_file add_labels
                        remove_labels add_assignee fmt) env).
Proof.
  unfold orderly.
  repeat apply conj; unfold_command; repeat case_next;
    try (eexists; reflexivity); auto.
Qed.

(** ** create *)

(** X3.  A [create] that passes the probe and has its body (no file, or a
    file that can be read) asks the backend once more, for the creation,
    with the body verbatim; the type of the issue has no say in the body,
    so the body skeleton of a template is never sent.  With [--output json]
    it prints the success record, with the stripped output of the backend
    as [url], and ends with status 0 when the backend returns 0; otherwise
    it prints "Failed to create issue" with the stripped diagnostic text of
    the backend as [details] and ends with status 1.  In human mode it ends
    with status 1 either way: after a creation that succeeded it shows the
    "Created #N" line and nothing else, after one that failed nothing. *)
Theorem create_outcome (env : Env) (title : string)
    (body body_file labels assignee : option string)
    (issue_type : option IssueType) (final_body : string) :
  authenticated env ->
  create_body env body body_file = FileText final_body ->
  let args :=
    create_args (create_final_title title issue_type) final_body
      (create_final_labels labels issue_type) assignee in
  let result := gh_proc env [probe] args in
  let url := PyStr.strip (stdout result) in
  run (create title body body_file issue_type labels assignee json) env
  = {| status := if returncode result =? 0 then 0 else 1;
       trace :=
         [Gh probe; Gh args;
          Print
            (Json.dumps
               (if returncode result =? 0
                then DDict [("success", VBool true);
                            ("issue_number", VStr (issue_num_of url));
                            ("url", VStr url)]
                else DDict [("error", VStr "Failed to create issue");
                            ("details",
                             VStr (PyStr.strip (stderr result)))]))] |}
  /\ run (create title body body_file issue_type labels assignee human) env
     = {| status := 1;
          trace :=
            [Gh probe; Gh args]
            ++ (if returncode result =? 0
                then [Rprint (check_mark ++ "Created #" ++ issue_num_of url)]
                else []) |}.
Proof.
  intros Ha Hbody. unfold create_body in Hbody.
  unfold issue_num_of. split; unfold_command; rewrite Ha; cbn;
    (destruct body_file as [path |]; cbn in *;
     [destruct (PyStr.nonempty path); cbn in *;
      [rewrite Hbody; cbn | injection Hbody as <-]
     | injection Hbody as <-]);
    case_returncode; reflexivity.
Qed.

(** On [Tracker.env] a body file wins over the inline body, and the type
    [bug] does not touch it; in human mode the issue is created and the
    command still ends with status 1. *)
Lemma create_outcome_witness :
  authenticated Tracker.env
  /\ create_body Tracker.env (Some "inline") (Some "notes.md")
     = FileText "from the file"
  /\ run (create "Login fails" (Some "inline") (Some "notes.md") (Some bug)
                 None None json) Tracker.env
     = {| status := 0;
          trace :=
            [Gh ["auth"; "status"];
             Gh ["issue"; "create"; "--title"; "[Bug] Login fails";
                 "--body"; "from the file"; "--label"; "bug"];
             Print (Json.dumps
                      (DDict [("success", VBool true);
                              ("issue_number", VStr "7");
                              ("url",
                               VStr "https://github.com/o/r/issues/7")]))] |}
  /\ run (create "Login fails" (Some "inline") (Some "notes.md") (Some bug)
                 None None human) Tracker.env
     = {| status := 1;
          trace :=
            [Gh ["auth"; "status"];
             Gh ["issue"; "create"; "--title"; "[Bug] Login fails";
                 "--body"; "from the file"; "--label"; "bug"];
             Rprint (check_mark ++ "Created #7")] |}.
Proof.
  split; [reflexivity | split; [reflexivity |]].
  apply (create_outcome Tracker.env "Login fails" (Some "inline")
           (Some "notes.md") None None (Some bug) "from the file");
    reflexivity.
Defined.

Lemma string_app_assoc (a b c : string) : (a ++ b) ++ c = a ++ b ++ c.
Proof.
  induction a as [| x a IH]; unfold String.append; fold String.append;
    congruence.
Qed.

Lemma string_app_nil_r (a : string) : a ++ EmptyString = a.
Proof.
  induction a as [| x a IH]; unfold String.append; fold String.append;
    congruence.
Qed.

(** [s.split(sep)] cuts [s] at every [sep]: gluing each piece but the last
    to a [sep] and all of them together gives [s] back, and no piece holds
    a [sep]. *)
Lemma split_shape (sep : ascii) (s : string) :
  exists init final,
    PyStr.split sep s = (init ++ [final])%list
    /\ s = String.concat EmptyString
             (map (fun p => p ++ String sep EmptyString) init) ++ final
    /\ Forall (fun p => has_char sep p = false) (init ++ [final])%list.
Proof.
  induction s as [| a rest (init & final & Hsplit & Hglue & Hclean)].
  - exists [], EmptyString. cbn. repeat split. repeat constructor.
  - cbn [PyStr.split]. destruct (Ascii.eqb_spec a sep) as [-> | Hne].
    + exists (EmptyString :: init), final. rewrite Hsplit. split; [reflexivity |].
      split.
      * cbn [map]. destruct init as [| p init]; cbn in *; now rewrite Hglue at 1.
      * constructor; [reflexivity | assumption].
    + rewrite Hsplit. destruct init as [| p init]; cbn [app] in *.
      * exists [], (String a final). cbn in *. subst rest. repeat split.
        apply Forall_cons_1 in Hclean as [Hfinal _].
        repeat constructor. cbn. rewrite Hfinal.
        destruct (Ascii.eqb_spec a sep); [contradiction | reflexivity].
      * exists (String a p :: init), final. split; [reflexivity |].
        apply Forall_cons_1 in Hclean as [Hp Hclean]. split.
        -- rewrite Hglue at 1. cbn [map].
           destruct init as [| q init]; cbn; reflexivity.
        -- constructor; [| assumption]. cbn. rewrite Hp.
           destruct (Ascii.eqb_spec a sep); [contradiction | reflexivity].
Qed.

Lemma concat_empty_snoc (l : list string) (x : string) :
  String.concat EmptyString (l ++ [x]) = String.concat EmptyString l ++ x.
Proof.
  induction l as [| y l IH]; [reflexivity |].
  cbn [app]. destruct l as [| z l].
  - reflexivity.
  - change (String.concat EmptyString (y :: (z :: l) ++ [x]))
      with (y ++ String.concat EmptyString ((z :: l) ++ [x])).
    rewrite IH.
    change (String.concat EmptyString (y :: z :: l))
      with (y ++ String.concat EmptyString (z :: l)).
    now rewrite string_app_assoc.
Qed.

(** X4.  The issue number [create] reports is read off the address the
    backend printed: it is "unknown" when the backend printed nothing, and
    otherwise the part of the address after its last slash (the whole
    address when there is no slash), so it holds no slash itself. *)
Theorem issue_num_of_url (url : string) :
  issue_num_of EmptyString = "unknown"
  /\ (url <> EmptyString ->
      has_char "/" (issue_num_of url) = false
      /\ exists before,
           url = before ++ issue_num_of url
           /\ (before = EmptyString
               \/ exists b, before = b ++ "/")).
Proof.
  split; [reflexivity |].
  intros Hurl%nonempty_true_iff. unfold issue_num_of. rewrite Hurl.
  destruct (split_shape "/" url) as (init & final & Hsplit & Hglue & Hclean).
  rewrite Hsplit, last_last. split.
  - apply Forall_app in Hclean as [_ Hfinal].
    now inversion Hfinal.
  - eexists. split; [exact Hglue |].
    destruct init as [| p init _] using rev_ind; [now left | right].
    rewrite map_app. cbn [map]. rewrite concat_empty_snoc.
    eexists. now rewrite <- string_app_assoc.
Qed.

(** The address [Tracker.env] answers with. *)
Lemma issue_num_of_url_witness :
  issue_num_of "https://github.com/o/r/issues/7" = "7"
  /\ has_char "/" (issue_num_of "https://github.com/o/r/issues/7") = false
  /\ exists before,
       "https://github.com/o/r/issues/7"
       = before ++ issue_num_of "https://github.com/o/r/issues/7"
       /\ (before = EmptyString \/ exists b, before = b ++ "/").
Proof.
  split; [reflexivity |].
  apply (issue_num_of_url "https://github.com/o/r/issues/7"). discriminate.
Defined.

(** X5.  For every type that [TEMPLATES] knows, [create] makes the title
    out of the prefix of the template, a space and the given title, and
    strips the result; it adds the labels of the template after those of
    the caller, and each of them is named after a [--label]. *)
Theorem create_with_template (t : IssueType) (tpl : Template) (title : string)
    (given : option string) :
  TEMPLATES !! IssueType_value t = Some tpl ->
  create_final_title title (Some t)
  = PyStr.strip (title_prefix tpl ++ " " ++ title)
  /\ create_final_labels given (Some t)
     = (create_final_labels given None ++ labels tpl)%list
  /\ forall label,
       label ∈ labels tpl ->
       exists before after,
         label_args (create_final_labels given (Some t))
         = (before ++ ["--label"; PyStr.strip label] ++ after)%list.
Proof.
  intros Htpl.
  assert (Hlabels : create_final_labels given (Some t)
                    = (create_final_labels given None ++ labels tpl)%list).
  { destruct t; vm_compute in Htpl; try discriminate;
      injection Htpl as <-; reflexivity. }
  split; [| split; [exact Hlabels |]].
  - destruct t; vm_compute in Htpl; try discriminate;
      injection Htpl as <-; reflexivity.
  - intros label Hin. apply label_args_elem. rewrite Hlabels.
    apply elem_of_app. now right.
Qed.

Lemma create_with_template_witness :
  TEMPLATES !! IssueType_value feature
  = Some {| title_prefix := "[Feature]"; labels := ["enhancement"];
            body_template := feature_body |}
  /\ create_final_title "  Dark mode " (Some feature) = "[Feature]   Dark mode"
  /\ create_final_labels (Some "ui") (Some feature) = ["ui"; "enhancement"].
Proof.
  split; [reflexivity |].
  destruct (create_with_template feature
              {| title_prefix := "[Feature]"; labels := ["enhancement"];
                 body_template := feature_body |}
              "  Dark mode " (Some "ui") eq_refl) as (Htitle & Hlabels & _).
  split; [exact Htitle | exact Hlabels].
Defined.

Lemma strip_after_space (s : string) : PyStr.strip (EmptyString ++ " " ++ s) = PyStr.strip s.
Proof. reflexivity. Qed.

(** X6.  Without a type, or with the type [custom], [create] sends the
    title exactly as given, white space included, and only the labels of
    the caller.  The type [phase] is in the enumeration but has no template:
    for it the title is stripped, nothing is put before it and no label is
    added. *)
Theorem create_without_template (title : string) (given : option string) :
  create_final_title title None = title
  /\ create_final_title title (Some custom) = title
  /\ create_final_title title (Some phase) = PyStr.strip title
  /\ create_final_labels given (Some custom) = create_final_labels given None
  /\ create_final_labels given (Some phase) = create_final_labels given None
  /\ create_final_labels None None = []
  /\ create_final_labels (Some EmptyString) None = [].
Proof.
  repeat split.
  - unfold create_final_labels. cbn [is_custom negb].
    replace (template_labels phase) with (@nil string) by reflexivity.
    apply app_nil_r.
Qed.

(** ** The labels of create *)

Lemma label_args_labels_passed (final_labels : list string) :
  label_args final_labels
  = flat_map (fun label => ["--label"; label]) (labels_passed final_labels).
Proof.
  unfold label_args, labels_passed.
  induction (elements (list_to_set final_labels : gset string)) as [| x l IH];
    [reflexivity |].
  cbn. now rewrite IH.
Qed.

(** X7.  [create] names one [--label] for each distinct label it has
    collected, stripped: a label is named exactly when it is the stripped
    form of a collected one.  Labels are told apart before they are
    stripped, so there are as many [--label]s as distinct unstripped labels,
    never more than labels collected. *)
Theorem create_labels_passed (final_labels : list string) :
  label_args final_labels
  = flat_map (fun label => ["--label"; label]) (labels_passed final_labels)
  /\ (forall label,
        label ∈ labels_passed final_labels
        <-> exists raw, raw ∈ final_labels /\ label = PyStr.strip raw)
  /\ length (labels_passed final_labels)
     = size (list_to_set final_labels : gset string)
  /\ (length (labels_passed final_labels) <= length final_labels)%nat.
Proof.
  split; [apply label_args_labels_passed |].
  unfold labels_passed. split; [| split].
  - intros label. rewrite list_elem_of_In, in_map_iff. split.
    + intros (raw & <- & Hin). exists raw. split; [| reflexivity].
      apply list_elem_of_In in Hin.
      now apply elem_of_elements, elem_of_list_to_set in Hin.
    + intros (raw & Hin & ->). exists raw. split; [reflexivity |].
      apply list_elem_of_In. now apply elem_of_elements, elem_of_list_to_set.
  - now rewrite length_map.
  - rewrite length_map. apply submseteq_length, NoDup_submseteq.
    + apply NoDup_elements.
    + intros x Hin. now apply elem_of_elements, elem_of_list_to_set in Hin.
Qed.

Lemma split_length (sep : ascii) (s : string) :
  length (PyStr.split sep s) = S (count_char sep s).
Proof.
  induction s as [| a rest IH]; [reflexivity |].
  cbn [PyStr.split count_char]. destruct (Ascii.eqb a sep); cbn.
  - now rewrite IH.
  - destruct (PyStr.split sep rest); cbn in *; [discriminate | assumption].
Qed.

Lemma split_trailing_sep (sep : ascii) (s : string) :
  exists piece pieces,
    PyStr.split sep (s ++ String sep EmptyString)
    = (piece :: pieces ++ [EmptyString])%list.
Proof.
  induction s as [| a rest (piece & pieces & IH)].
  - exists EmptyString, [].
    change (EmptyString ++ String sep EmptyString) with (String sep EmptyString).
    cbn [PyStr.split]. now rewrite Ascii.eqb_refl.
  - change (String a rest ++ String sep EmptyString)
      with (String a (rest ++ String sep EmptyString)).
    cbn [PyStr.split]. rewrite IH. destruct (Ascii.eqb a sep).
    + now exists EmptyString, (piece :: pieces).
    + now exists (String a piece), pieces.
Qed.

(** X8.  The labels the caller gives to [create] are the pieces of
    [--labels] between its commas, empty pieces included: one more than
    there are commas.  So a comma at the end makes [create] name an empty
    label after a [--label]. *)
Theorem create_labels_split (given : string) :
  given <> EmptyString ->
  create_final_labels (Some given) None = PyStr.split "," given
  /\ length (create_final_labels (Some given) None)
     = S (count_char "," given)
  /\ forall before,
       given = before ++ "," ->
       exists args_before args_after,
         label_args (create_final_labels (Some given) None)
         = (args_before ++ ["--label"; EmptyString] ++ args_after)%list.
Proof.
  intros Hgiven%nonempty_true_iff.
  assert (Hsplit : create_final_labels (Some given) None
                   = PyStr.split "," given).
  { unfold create_final_labels. now rewrite Hgiven. }
  rewrite Hsplit. split; [reflexivity |]. split; [apply split_length |].
  intros before ->.
  destruct (split_trailing_sep "," before) as (piece & pieces & ->).
  apply (label_args_elem EmptyString).
  apply elem_of_cons. right. apply elem_of_app. right.
  now apply list_elem_of_singleton.
Qed.

Lemma create_labels_split_witness :
  create_final_labels (Some "bug,ui,") None = ["bug"; "ui"; EmptyString]
  /\ exists args_before args_after,
       label_args (create_final_labels (Some "bug,ui,") None)
       = (args_before ++ ["--label"; EmptyString] ++ args_after)%list.
Proof.
  destruct (create_labels_split "bug,ui," ltac:(discriminate))
    as (Hsplit & _ & Hempty).
  split; [exact Hsplit |]. now apply (Hempty "bug,ui").
Defined.

(** ** comment *)

(** X9.  When the body an invocation of [comment] resolves is not empty,
    the command hands it to the backend as it is, unstripped, in the one
    invocation that follows the probe.  With [--output json] it prints the
    success record and ends with status 0 when the backend returns 0, and
    prints "Failed to comment on #N" and ends with status 1 otherwise.  In
    human mode it ends with status 1 either way, having shown the
    "Commented on #N" line when the comment was added and nothing when it
    was not. *)
Theorem comment_outcome (env : Env) (issue_number : Z)
    (body body_file : option string) (body_stdin : bool) (fmt : OutputFormat)
    (text : string) :
  comment_resolves env body body_file body_stdin fmt (Some text) ->
  text <> EmptyString ->
  let result := gh_proc env [probe] (comment_call issue_number text) in
  run (comment issue_number body body_file body_stdin fmt) env
  = match fmt with
    | json =>
        {| status := if returncode result =? 0 then 0 else 1;
           trace :=
             [Gh probe; Gh (comment_call issue_number text);
              Print
                (Json.dumps
                   (if returncode result =? 0
                    then DDict [("success", VBool true);
                                ("issue_number", VInt issue_number);
                                ("action", VStr "commented")]
                    else error_record
                           ("Failed to comment on #"
                            ++ PyStr.of_int issue_number)))] |}
    | human =>
        {| status := 1;
           trace :=
             [Gh probe; Gh (comment_call issue_number text)]
             ++ (if returncode result =? 0
                 then [Rprint (check_mark ++ "Commented on #"
                               ++ PyStr.of_int issue_number)]
                 else []) |}
    end.
Proof.
  intros [Ha Hres]%comment_resolves_inv Htext%nonempty_true_iff.
  unfold run, comment, bind. rewrite (ensure_auth_passes env Ha), Hres.
  unfold error_record. unfold_command. rewrite Htext; cbn.
  case_returncode; destruct fmt; reflexivity.
Qed.

(** Standard input of [Tracker.env] is two spaces, and its backend
    refuses the comment. *)
Lemma comment_outcome_witness :
  comment_resolves Tracker.env None None true json (Some "  ")
  /\ run (comment 42 None None true json) Tracker.env
     = {| status := 1;
          trace := [Gh ["auth"; "status"];
                    Gh ["issue"; "comment"; "42"; "--body"; "  "];
                    Print (Json.dumps
                             (DDict [("error",
                                      VStr "Failed to comment on #42")]))] |}.
Proof.
  split; [reflexivity |].
  apply (comment_outcome Tracker.env 42 None None true json "  ");
    [reflexivity | discriminate].
Defined.

(** ** edit *)

Lemma edit_args_length issue_number title final_body add_labels remove_labels
    add_assignee :
  (length (edit_args issue_number title final_body add_labels remove_labels
                     add_assignee) =? 3)%nat
  = nothing_to_edit title final_body add_labels remove_labels add_assignee.
Proof.
  unfold edit_args, nothing_to_edit, extend_if, PyStr.truthy.
  destruct title as [s1 |]; [destruct (PyStr.nonempty s1) |];
    try reflexivity;
    (destruct final_body as [s2 |]; [destruct (PyStr.nonempty s2) |];
     try reflexivity;
     (destruct add_labels as [s3 |]; [destruct (PyStr.nonempty s3) |];
      try reflexivity;
      (destruct remove_labels as [s4 |]; [destruct (PyStr.nonempty s4) |];
       try reflexivity;
       (destruct add_assignee as [s5 |]; [destruct (PyStr.nonempty s5) |];
        reflexivity)))).
Qed.

(** X10.  Once [edit] has its body, it leaves with the "No changes
    specified" notice, status 0 and no further invocation exactly when the
    title, the body and the three label and assignee options are all
    missing or empty.  Otherwise it asks the backend once, with the
    options that are not empty in the order title, body, add-label,
    remove-label, add-assignee.  With [--output json] it then prints the
    success or the failure record and ends with status 0 or 1 as the
    backend returns 0 or not; in human mode it ends with status 1 either
    way, having shown the "Edited #N" line only when the edit was made. *)
Theorem edit_outcome (env : Env) (issue_number : Z)
    (title body body_file add_labels remove_labels add_assignee : option string)
    (fmt : OutputFormat) (final_body : option string) :
  edit_resolves env body body_file fmt final_body ->
  let args :=
    edit_args issue_number title final_body add_labels remove_labels
      add_assignee in
  let result := gh_proc env [probe] args in
  run (edit issue_number title body body_file add_labels remove_labels
            add_assignee fmt) env
  = if nothing_to_edit title final_body add_labels remove_labels add_assignee
    then {| status := 0; trace := [Gh probe; Rprint no_changes_notice] |}
    else
      match fmt with
      | json =>
          {| status := if returncode result =? 0 then 0 else 1;
             trace :=
               [Gh probe; Gh args;
                Print
                  (Json.dumps
                     (if returncode result =? 0
                      then DDict [("success", VBool true);
                                  ("issue_number", VInt issue_number);
                                  ("action", VStr "edited")]
                      else error_record
                             ("Failed to edit #"
                              ++ PyStr.of_int issue_number)))] |}
      | human =>
          {| status := 1;
             trace :=
               [Gh probe; Gh args]
               ++ (if returncode result =? 0
                   then [Rprint (check_mark ++ "Edited #"
                                 ++ PyStr.of_int issue_number)]
                   else []) |}
      end.
Proof.
  intros [Ha Hres]%edit_resolves_inv.
  unfold run, edit, bind. rewrite (ensure_auth_passes env Ha), Hres.
  rewrite edit_args_length.
  destruct (nothing_to_edit _ _ _ _ _); [reflexivity |].
  unfold error_record. unfold_command.
  case_returncode; destruct fmt; reflexivity.
Qed.

(** A title, an empty [--add-labels] and a body file on [Tracker.env],
    whose backend refuses the edit. *)
Lemma edit_outcome_witness :
  edit_resolves Tracker.env (Some "inline") (Some "notes.md") json
    (Some "from the file")
  /\ run (edit 42 (Some "New title") (Some "inline") (Some "notes.md")
               (Some EmptyString) None None json) Tracker.env
     = {| status := 1;
          trace := [Gh ["auth"; "status"];
                    Gh ["issue"; "edit"; "42"; "--title"; "New title";
                        "--body"; "from the file"];
                    Print (Json.dumps
                             (DDict [("error", VStr "Failed to edit #42")]))] |}.
Proof.
  split; [reflexivity |].
  apply (edit_outcome Tracker.env 42 (Some "New title") (Some "inline")
           (Some "notes.md") (Some EmptyString) None None json
           (Some "from the file")).
  reflexivity.
Defined.

(** ** What the backend writes *)

(** X11.  [close], [reopen], [comment] and [edit] look at nothing but the
    return codes of the backend: what it writes on its output and error
    streams changes neither what they ask of it, nor what they show, nor
    their status.  (Only [create] shows that text.) *)
Theorem backend_text_ignored (env1 env2 : Env) (fmt : OutputFormat)
    (issue_number : Z) (reason : string)
    (note title body body_file add_labels remove_labels add_assignee
       : option string) (body_stdin : bool) :
  same_return_codes env1 env2 ->
  run (close issue_number note reason fmt) env1
  = run (close issue_number note reason fmt) env2
  /\ run (reopen issue_number note fmt) env1
     = run (reopen issue_number note fmt) env2
  /\ run (comment issue_number body body_file body_stdin fmt) env1
     = run (comment issue_number body body_file body_stdin fmt) env2
  /\ run (edit issue_number title body body_file add_labels remove_labels
               add_assignee fmt) env1
     = run (edit issue_number title body body_file add_labels remove_labels
                 add_assignee fmt) env2.
Proof.
  intros (Hrc & Hfiles & Hstdin).
  repeat apply conj; unfold_command;
    repeat (rewrite <- ?Hstdin, <- ?Hfiles, <- ?Hrc; case_next);
    rewrite <- ?Hrc; reflexivity.
Qed.

(** [Tracker.env] and [Tracker.terse] differ in the text only. *)
Lemma backend_text_ignored_witness :
  same_return_codes Tracker.env Tracker.terse
  /\ stderr (gh_proc Tracker.env [] ["issue"; "close"; "42"])
     <> stderr (gh_proc Tracker.terse [] ["issue"; "close"; "42"])
  /\ run (close 42 (Some "Fixed") "completed" human) Tracker.env
     = run (close 42 (Some "Fixed") "completed" human) Tracker.terse.
Proof.
  assert (Hsame : same_return_codes Tracker.env Tracker.terse)
    by (repeat split).
  split; [exact Hsame | split; [discriminate |]].
  apply (backend_text_ignored Tracker.env Tracker.terse human 42 "completed"
           (Some "Fixed") None None None None None None false Hsame).
Defined.

(** ** The default format *)

(** X12.  In human mode, which is the default, [create], [close], [reopen]
    and [comment] never end with status 0: whatever the backend answers and
    whatever the arguments, the status is 1, also after the backend has
    made the change. *)
Theorem human_mode_never_succeeds (env : Env) (issue_number : Z)
    (title reason : string)
    (body body_file labels assignee note : option string)
    (issue_type : option IssueType) (body_stdin : bool) :
  status (run (create title body body_file issue_type labels assignee human)
              env) = 1
  /\ status (run (close issue_number note reason human) env) = 1
  /\ status (run (reopen issue_number note human) env) = 1
  /\ status (run (comment issue_number body body_file body_stdin human) env)
     = 1.
Proof.
  repeat apply conj; unfold_command; repeat case_next; reflexivity.
Qed.

(** * Properties of the commands that read *)

Ltac unfold_query :=
  unfold Query.list, Query.search, Query.labels, Query.status,
    Query.loads_or_empty, json_loads, list_call, search_call, labels_call,
    repo_call, error_record in *;
  unfold_command.

(** X13.  When the invocation that follows the probe fails, [list],
    [search] and [labels] end with status 1 and never look at what the
    backend printed on its output: the decoder plays no part.  With
    [--output json] they print their error record, to which [list] alone
    adds the stripped diagnostic text of the backend as [details]; in human
    mode they show nothing. *)
Theorem reading_backend_failure (env : Env) (fmt : OutputFormat)
    (loads_issues : string -> option (list IssueJson))
    (loads_labels : string -> option (list LabelJson))
    (state : Query.IssueState) (labels assignee : option string) (limit : Z)
    (query : string) :
  authenticated env ->
  let failed (args : list string) :=
    returncode (gh_proc env [probe] args) <> 0 in
  let stopped (args : list string) (x : data) :=
    {| status := 1;
       trace := [Gh probe; Gh args]
                ++ match fmt with
                   | json => [Print (Json.dumps x)]
                   | human => []
                   end |} in
  (failed (list_call state labels assignee limit) ->
   run (Query.list loads_issues state labels assignee limit fmt) env
   = stopped (list_call state labels assignee limit)
       (DDict [("error", VStr "Failed to list issues");
               ("details",
                VStr (PyStr.strip
                        (stderr (gh_proc env [probe]
                                   (list_call state labels assignee
                                              limit)))))]))
  /\ (failed (search_call query state limit) ->
      run (Query.search loads_issues query state limit fmt) env
      = stopped (search_call query state limit) (error_record "Search failed"))
  /\ (failed labels_call ->
      run (Query.labels loads_labels fmt) env
      = stopped labels_call (error_record "Failed to list labels")).
Proof.
  intros Ha. cbn zeta. repeat apply conj; intros Hrc; unfold_query;
    rewrite Ha; cbn; case_returncode; destruct fmt; reflexivity.
Qed.

Lemma reading_backend_failure_witness :
  authenticated Replies.only_probe_works
  /\ run (Query.list Replies.loads_issues Query.open None None 30 json)
         Replies.only_probe_works
     = {| status := 1;
          trace :=
            [Gh ["auth"; "status"];
             Gh ["issue"; "list"; "--state"; "open"; "--limit"; "30"; "--json";
                 "number,title,state,labels,author,createdAt,updatedAt,assignees"];
             Print (Json.dumps
                      (DDict [("error", VStr "Failed to list issues");
                              ("details", VStr "rate limit")]))] |}.
Proof.
  split; [reflexivity |].
  destruct (reading_backend_failure Replies.only_probe_works json
              Replies.loads_issues Replies.loads_no_labels Query.open None None
              30 "q" eq_refl) as (Hlist & _).
  apply Hlist. discriminate.
Defined.

(** X14.  When the invocation that follows the probe succeeds and prints
    nothing, [list], [search] and [labels] do not decode anything, whatever
    the decoder would say of the empty text.  With [--output json] they
    print the empty array and end with status 0; in human mode they show
    nothing, not even the "No results." notice, and end with status 1. *)
Theorem reading_empty_reply (env : Env) (fmt : OutputFormat)
    (loads_issues : string -> option (list IssueJson))
    (loads_labels : string -> option (list LabelJson))
    (state : Query.IssueState) (labels assignee : option string) (limit : Z)
    (query : string) :
  authenticated env ->
  let empty_reply (args : list string) :=
    returncode (gh_proc env [probe] args) = 0
    /\ stdout (gh_proc env [probe] args) = EmptyString in
  let nothing_found (args : list string) :=
    match fmt with
    | json =>
        {| status := 0; trace := [Gh probe; Gh args; Print "[]"] |}
    | human =>
        {| status := 1; trace := [Gh probe; Gh args] |}
    end in
  (empty_reply (list_call state labels assignee limit) ->
   run (Query.list loads_issues state labels assignee limit fmt) env
   = nothing_found (list_call state labels assignee limit))
  /\ (empty_reply (search_call query state limit) ->
      run (Query.search loads_issues query state limit fmt) env
      = nothing_found (search_call query state limit))
  /\ (empty_reply labels_call ->
      run (Query.labels loads_labels fmt) env = nothing_found labels_call).
Proof.
  intros Ha. cbn zeta. repeat apply conj; intros [Hrc Hout]; unfold_query;
    rewrite Ha; cbn; rewrite Hrc; cbn; rewrite Hout; cbn;
    destruct fmt; reflexivity.
Qed.

(** [Samples.logged_in] answers with return code 0 and no text; the
    decoder of labels refuses every text. *)
Lemma reading_empty_reply_witness :
  authenticated Samples.logged_in
  /\ Replies.loads_no_labels EmptyString = None
  /\ run (Query.labels Replies.loads_no_labels json) Samples.logged_in
     = {| status := 0;
          trace := [Gh ["auth"; "status"];
                    Gh ["label"; "list"; "--json"; "name,description,color"];
                    Print "[]"] |}
  /\ run (Query.labels Replies.loads_no_labels human) Samples.logged_in
     = {| status := 1;
          trace := [Gh ["auth"; "status"];
                    Gh ["label"; "list"; "--json"; "name,description,color"]] |}.
Proof.
  split; [reflexivity | split; [reflexivity |]]. split.
  - destruct (reading_empty_reply Samples.logged_in json Replies.loads_issues
                Replies.loads_no_labels Query.open None None 30 "q" eq_refl)
      as (_ & _ & Hlabels).
    apply Hlabels. split; reflexivity.
  - destruct (reading_empty_reply Samples.logged_in human Replies.loads_issues
                Replies.loads_no_labels Query.open None None 30 "q" eq_refl)
      as (_ & _ & Hlabels).
    apply Hlabels. split; reflexivity.
Defined.

(** ** The rows of list and search *)

Lemma settles_bind {A B} (c : M A) (k : A -> M B) a r :
  settles c (Ret a) -> settles (k a) r -> settles (bind c k) r.
Proof. intros Hc Hk env tr. unfold bind. now rewrite Hc, Hk. Qed.

Lemma settles_bind_raise {A B} (c : M A) (k : A -> M B) exn :
  settles c (Uncaught exn) -> settles (bind c k) (Uncaught exn).
Proof. intros Hc env tr. unfold bind. now rewrite Hc. Qed.

Lemma quiet_ret {A} (a : A) : quiet (ret a).
Proof. left. now exists a. Qed.

Lemma quiet_raise {A} (exn : string) : quiet (@raise A exn).
Proof. right. now exists exn. Qed.

Lemma quiet_bind {A B} (c : M A) (k : A -> M B) :
  quiet c -> (forall a, quiet (k a)) -> quiet (bind c k).
Proof.
  intros [[a Ha] | [exn Hexn]] Hk.
  - destruct (Hk a) as [[b Hb] | [exn Hexn]].
    + left. exists b. now apply settles_bind with a.
    + right. exists exn. now apply settles_bind with a.
  - right. exists exn. now apply settles_bind_raise.
Qed.

Lemma quiet_subscript {A} key (value : option A) : quiet (subscript key value).
Proof. destruct value; [apply quiet_ret | apply quiet_raise]. Qed.

Lemma quiet_comprehension {A B} (f : A -> M B) (xs : list A) :
  (forall x, quiet (f x)) -> quiet (comprehension f xs).
Proof.
  intros Hf. induction xs as [| x xs IH]; [apply quiet_ret |].
  cbn. apply quiet_bind; [apply Hf |]. intros y.
  apply quiet_bind; [apply IH |]. intros ys. apply quiet_ret.
Qed.

Lemma quiet_joined_label_names i : quiet (joined_label_names i).
Proof.
  unfold joined_label_names. apply quiet_bind.
  - destruct (i_labels i) as [[| labels] |];
      [apply quiet_raise | apply quiet_ret | apply quiet_ret].
  - intros labels. apply quiet_bind.
    + apply quiet_comprehension. intros l. apply quiet_subscript.
    + intros names. unfold str_join.
      destruct (all_strings names); [apply quiet_ret | apply quiet_raise].
Qed.

Lemma quiet_get_login author : quiet (get_login author).
Proof.
  destruct author as [[| a] |];
    [apply quiet_raise | apply quiet_ret | apply quiet_ret].
Qed.

Lemma quiet_first_ten created_at : quiet (first_ten created_at).
Proof.
  destruct created_at as [[s | n | b |] |];
    try apply quiet_raise; apply quiet_ret.
Qed.

Lemma quiet_list_row i : quiet (Query.list_row i).
Proof.
  unfold Query.list_row.
  repeat (apply quiet_bind;
          [first [apply quiet_subscript | apply quiet_joined_label_names
                 | apply quiet_get_login | apply quiet_first_ten] | intros ?]).
  apply quiet_ret.
Qed.

Lemma quiet_search_row i : quiet (Query.search_row i).
Proof.
  unfold Query.search_row.
  repeat (apply quiet_bind;
          [first [apply quiet_subscript | apply quiet_joined_label_names
                 | apply quiet_get_login | apply quiet_first_ten] | intros ?]).
  apply quiet_ret.
Qed.

(** A comprehension over rows gives every row or the exception of one. *)
Lemma comprehension_rows {A B} (f : A -> M B) (xs : list A) :
  (forall x, quiet (f x)) ->
  (exists ys,
     settles (comprehension f xs) (Ret ys)
     /\ Forall2 (fun x y => settles (f x) (Ret y)) xs ys)
  \/ (exists x exn,
        x ∈ xs /\ settles (f x) (Uncaught exn)
        /\ settles (comprehension f xs) (Uncaught exn)).
Proof.
  intros Hf. induction xs as [| x xs IH].
  - left. exists []. split; [now intros env tr | constructor].
  - cbn [comprehension]. destruct (Hf x) as [[y Hy] | [exn Hexn]].
    + destruct IH as [(ys & Hys & Hall) | (x' & exn & Hin & Hx' & Hraise)].
      * left. exists (y :: ys). split; [| now constructor].
        apply settles_bind with y; [assumption |].
        apply settles_bind with ys; [assumption |]. now intros env tr.
      * right. exists x', exn. split; [apply elem_of_cons; now right |].
        split; [assumption |].
        apply settles_bind with y; [assumption |].
        now apply settles_bind_raise.
    + right. exists x, exn. split; [apply elem_of_cons; now left |].
      split; [assumption |]. now apply settles_bind_raise.
Qed.

(** What [list] and [search] do with a text the backend printed. *)
Lemma reading_text (row : IssueJson -> M record) (command : OutputFormat -> M unit)
    (on_failure : OutputFormat -> CompletedProcess -> M unit)
    (args : list string) loads_issues env :
  (forall i, quiet (row i)) ->
  (forall fmt,
     command fmt
     = (ensure_auth >>;
        let* result := run_gh args false in
        if negb (returncode result =? 0) then on_failure fmt result
        else
          let* issues := Query.loads_or_empty loads_issues (stdout result) in
          let* formatted := comprehension row issues in
          output (DList formatted) fmt EmptyString)) ->
  authenticated env ->
  returncode (gh_proc env [probe] args) = 0 ->
  stdout (gh_proc env [probe] args) <> EmptyString ->
  let text := stdout (gh_proc env [probe] args) in
  let nothing := {| status := 1; trace := [Gh probe; Gh args] |} in
  run (command human) env = nothing
  /\ ((exists issues rows,
         loads_issues text = Some issues
         /\ Forall2 (fun i r => settles (row i) (Ret r)) issues rows
         /\ run (command json) env
            = {| status := 0;
                 trace := [Gh probe; Gh args;
                           Print (Json.dumps (DList rows))] |})
      \/ (run (command json) env = nothing
          /\ (loads_issues text = None
              \/ exists issues i exn,
                   loads_issues text = Some issues
                   /\ i ∈ issues
                   /\ settles (row i) (Uncaught exn)))).
Proof.
  intros Hrow Hcommand Ha Hrc Hout%nonempty_true_iff text nothing.
  assert (Hrun : forall fmt,
            run (command fmt) env
            = match loads_issues text with
              | None => nothing
              | Some issues =>
                  match comprehension row issues env [Gh probe; Gh args] with
                  | (Ret rows, tr) =>
                      match output (DList rows) fmt EmptyString env tr with
                      | (Ret _, tr') => {| status := 0; trace := tr' |}
                      | (Exit code, tr') => {| status := code; trace := tr' |}
                      | (Uncaught _, tr') => {| status := 1; trace := tr' |}
                      end
                  | (Exit code, tr) => {| status := code; trace := tr |}
                  | (Uncaught _, tr) => {| status := 1; trace := tr |}
                  end
              end).
  { intros fmt. rewrite Hcommand. unfold run, bind.
    rewrite (ensure_auth_passes env Ha).
    unfold run_gh. cbn [andb]. change (gh_calls [Gh probe]) with [probe].
    rewrite Hrc. cbn [Z.eqb negb app].
    unfold Query.loads_or_empty, json_loads. rewrite Hout. fold text.
    destruct (loads_issues text) as [issues |]; [| reflexivity].
    unfold ret at 1.
    destruct (comprehension row issues env [Gh probe; Gh args])
      as [[rows | code | exn] tr]; reflexivity. }
  pose proof (Hrun human) as Hhuman. pose proof (Hrun json) as Hjson.
  clear Hrun. rewrite Hhuman, Hjson. clear Hhuman Hjson.
  destruct (loads_issues text) as [issues |];
    [| split; [reflexivity | right; split; [reflexivity | now left]]].
  destruct (comprehension_rows row issues Hrow)
    as [(rows & Hrows & Hall) | (i & exn & Hin & Hi & Hraise)].
  - rewrite (Hrows env [Gh probe; Gh args]), output_human, output_json.
    split; [reflexivity |]. left. now exists issues, rows.
  - rewrite (Hraise env [Gh probe; Gh args]). split; [reflexivity |]. right.
    split; [reflexivity |]. right. now exists issues, i, exn.
Qed.

(** X15.  When the backend answers [list] or [search] with a text, the
    command shows all or nothing.  With [--output json]: if the text
    decodes and the row of every issue can be made, the command prints the
    rows of all the issues, in the order of the reply, as one document and
    ends with status 0; if the text does not decode, or the row of any one
    issue raises an exception (a key that is missing, a [null] where an
    object or a string is needed), nothing is printed, not even the rows of
    the issues before it, and the status is 1.  In human mode nothing is
    shown and the status is 1 in every case. *)
Theorem reading_all_or_nothing (env : Env)
    (loads_issues : string -> option (list IssueJson))
    (state : Query.IssueState) (labels assignee : option string) (limit : Z)
    (query : string) :
  authenticated env ->
  let text_reply (args : list string) :=
    returncode (gh_proc env [probe] args) = 0
    /\ stdout (gh_proc env [probe] args) <> EmptyString in
  let all_or_nothing (row : IssueJson -> M record)
        (command : OutputFormat -> M unit) (args : list string) :=
    let text := stdout (gh_proc env [probe] args) in
    let nothing := {| status := 1; trace := [Gh probe; Gh args] |} in
    run (command human) env = nothing
    /\ ((exists issues rows,
           loads_issues text = Some issues
           /\ Forall2 (fun i r => settles (row i) (Ret r)) issues rows
           /\ run (command json) env
              = {| status := 0;
                   trace := [Gh probe; Gh args;
                             Print (Json.dumps (DList rows))] |})
        \/ (run (command json) env = nothing
            /\ (loads_issues text = None
                \/ exists issues i exn,
                     loads_issues text = Some issues
                     /\ i ∈ issues
                     /\ settles (row i) (Uncaught exn)))) in
  (text_reply (list_call state labels assignee limit) ->
   all_or_nothing Query.list_row
     (Query.list loads_issues state labels assignee limit)
     (list_call state labels assignee limit))
  /\ (text_reply (search_call query state limit) ->
      all_or_nothing Query.search_row
        (Query.search loads_issues query state limit)
        (search_call query state limit)).
Proof.
  intros Ha. cbn zeta. split; intros [Hrc Hout].
  - eapply (reading_text Query.list_row
              (Query.list loads_issues state labels assignee limit));
      try eassumption; [apply quiet_list_row |].
    intros fmt. reflexivity.
  - eapply (reading_text Query.search_row
              (Query.search loads_issues query state limit));
      try eassumption; [apply quiet_search_row |].
    intros fmt. reflexivity.
Qed.

(** On a backend that prints [Replies.two_issues_text] the two issues are
    printed as two rows; on one that prints [Replies.ghost_text], whose
    second issue has [null] for author, nothing is printed. *)
Lemma reading_all_or_nothing_witness :
  authenticated (Replies.prints Replies.two_issues_text)
  /\ Replies.loads_issues Replies.two_issues_text = Some Replies.two_issues
  /\ run (Query.list Replies.loads_issues Query.open None None 30 json)
         (Replies.prints Replies.two_issues_text)
     = {| status := 0;
          trace :=
            [Gh ["auth"; "status"];
             Gh ["issue"; "list"; "--state"; "open"; "--limit"; "30"; "--json";
                 "number,title,state,labels,author,createdAt,updatedAt,assignees"];
             Print
               (Json.dumps
                  (DList
                     [[("number", VInt 7); ("title", VStr "Login fails");
                       ("state", VStr "OPEN"); ("labels", VStr "bug, ui");
                       ("author", VStr "ann");
                       ("created", VStr "2025-01-02")];
                      [("number", VInt 8); ("title", VStr "Dark mode");
                       ("state", VStr "OPEN"); ("labels", VStr EmptyString);
                       ("author", VStr EmptyString);
                       ("created", VStr EmptyString)]]))] |}
  /\ run (Query.list Replies.loads_issues Query.open None None 30 json)
         (Replies.prints Replies.ghost_text)
     = {| status := 1;
          trace :=
            [Gh ["auth"; "status"];
             Gh ["issue"; "list"; "--state"; "open"; "--limit"; "30"; "--json";
                 "number,title,state,labels,author,createdAt,updatedAt,assignees"]] |}.
Proof.
  split; [reflexivity | split; [reflexivity |]]. split.
  - destruct (reading_all_or_nothing (Replies.prints Replies.two_issues_text)
                Replies.loads_issues Query.open None None 30 "q" eq_refl)
      as (Hlist & _).
    destruct Hlist as (_ & [(issues & rows & Hloads & Hrows & Hrun)
                           | (Hrun & _)]);
      [split; [reflexivity | discriminate] | | discriminate Hrun].
    injection Hloads as <-.
    inversion Hrows as [| i1 r1 is1 rs1 H1 Hrest]; subst.
    inversion Hrest as [| i2 r2 is2 rs2 H2 Hnil]; subst.
    inversion Hnil; subst.
    specialize (H1 Samples.logged_in []). injection H1 as <-.
    specialize (H2 Samples.logged_in []). injection H2 as <-.
    exact Hrun.
  - destruct (reading_all_or_nothing (Replies.prints Replies.ghost_text)
                Replies.loads_issues Query.open None None 30 "q" eq_refl)
      as (Hlist & _).
    destruct Hlist as (_ & [(issues & rows & Hloads & Hrows & Hrun)
                           | (Hrun & _)]);
      [split; [reflexivity | discriminate] | discriminate Hrun | exact Hrun].
Defined.

Lemma str_prefix_shape (n : nat) (s : string) :
  String.length (str_prefix n s) = Nat.min n (String.length s)
  /\ exists rest, s = str_prefix n s ++ rest.
Proof.
  revert s. induction n as [| n IH]; intros s.
  - split; [reflexivity | now exists s].
  - destruct s as [| a s]; cbn [str_prefix String.length Nat.min].
    + split; [reflexivity | now exists EmptyString].
    + destruct (IH s) as (Hlen & rest & Hrest). split; [now rewrite Hlen |].
      exists rest. change (String a (str_prefix n s) ++ rest)
        with (String a (str_prefix n s ++ rest)). now rewrite <- Hrest.
Qed.

(** X16.  In a row of [list] or [search] the date of creation is the
    first ten characters of the [createdAt] of the issue: what is shown
    under [created] begins the text of the reply and is ten characters
    long, or the whole text when that is shorter. *)
Theorem rows_created_date (i : IssueJson) (s : string) (row : record) :
  i_createdAt i = Some (VStr s) ->
  settles (Query.list_row i) (Ret row)
  \/ settles (Query.search_row i) (Ret row) ->
  exists created rest,
    ("created", VStr created) ∈ row
    /\ s = created ++ rest
    /\ String.length created = Nat.min 10 (String.length s).
Proof.
  intros Hcreated Hrow.
  destruct (str_prefix_shape 10 s) as (Hlen & rest & Hrest).
  exists (str_prefix 10 s), rest. split; [| now split].
  destruct Hrow as [Hrow | Hrow]; specialize (Hrow Samples.logged_in []);
    unfold Query.list_row, Query.search_row, bind, subscript, first_ten in Hrow;
    rewrite Hcreated in Hrow;
    destruct (i_number i), (i_title i), (i_state i); cbn in Hrow;
    try discriminate;
    destruct (joined_label_names i Samples.logged_in [])
      as [[names | code | exn] tr1]; try discriminate;
    try (destruct (get_login (i_author i) Samples.logged_in tr1)
           as [[login | code | exn] tr2]; try discriminate);
    cbn in Hrow; injection Hrow as <-;
    apply list_elem_of_In; cbn; tauto.
Qed.

(** The first issue of [Replies.two_issues]. *)
Lemma rows_created_date_witness :
  exists created rest,
    ("created", VStr created)
    ∈ [("number", VInt 7); ("title", VStr "Login fails");
       ("state", VStr "OPEN"); ("labels", VStr "bug, ui");
       ("author", VStr "ann"); ("created", VStr "2025-01-02")]
    /\ "2025-01-02T03:04:05Z" = created ++ rest
    /\ String.length created = 10%nat.
Proof.
  apply (rows_created_date
           {| i_number := Some (VInt 7); i_title := Some (VStr "Login fails");
              i_state := Some (VStr "OPEN");
              i_labels :=
                Some (NotNull [{| l_name := Some (VStr "bug");
                                  l_description := None |};
                               {| l_name := Some (VStr "ui");
                                  l_description := None |}]);
              i_author := Some (NotNull {| a_login := Some (VStr "ann") |});
              i_createdAt := Some (VStr "2025-01-02T03:04:05Z") |}
           "2025-01-02T03:04:05Z").
  - reflexivity.
  - left. intros env tr. reflexivity.
Defined.

(** ** status *)

(** X17.  [status] is not gated by the probe: whatever the backend
    answers and in either format, it asks for [gh auth status] and then for
    [gh repo view], and for nothing else.  When the repository cannot be
    viewed, with [--output json] it prints whether the probe passed and
    [null] as the repository, without a url, and ends with status 0, also
    on a session that is not authenticated; in human mode it shows nothing
    and ends with status 1. *)
Theorem status_not_gated (env : Env) (fmt : OutputFormat)
    (loads_repo : string -> option RepoJson) :
  let auth := gh_proc env [] probe in
  let repo := gh_proc env [probe] repo_call in
  gh_calls (trace (run (Query.status loads_repo fmt) env)) = [probe; repo_call]
  /\ (returncode repo <> 0 ->
      run (Query.status loads_repo json) env
      = {| status := 0;
           trace :=
             [Gh probe; Gh repo_call;
              Print
                (Json.dumps
                   (DDict [("authenticated", VBool (returncode auth =? 0));
                           ("repository", VNone)]))] |}
      /\ run (Query.status loads_repo human) env
         = {| status := 1; trace := [Gh probe; Gh repo_call] |}).
Proof.
  cbn zeta. split.
  - unfold_query.
    destruct (returncode (gh_proc env [["auth"; "status"]] _) =? 0); cbn.
    + destruct (loads_repo _) as [r |]; cbn; [| reflexivity].
      unfold get_login. destruct (r_owner r) as [[| owner] |]; cbn;
        destruct fmt; reflexivity.
    + destruct fmt; reflexivity.
  - intros Hrc. split; unfold_query; case_returncode; reflexivity.
Qed.

(** On [Replies.nothing_works] neither the probe nor the view succeeds. *)
Lemma status_not_gated_witness :
  ~ authenticated Replies.nothing_works
  /\ run (Query.status Replies.loads_no_repo json) Replies.nothing_works
     = {| status := 0;
          trace :=
            [Gh ["auth"; "status"];
             Gh ["repo"; "view"; "--json"; "name,owner,url"];
             Print (Json.dumps
                      (DDict [("authenticated", VBool false);
                              ("repository", VNone)]))] |}
  /\ run (Query.status Replies.loads_no_repo human) Replies.nothing_works
     = {| status := 1;
          trace := [Gh ["auth"; "status"];
                    Gh ["repo"; "view"; "--json"; "name,owner,url"]] |}.
Proof.
  split; [discriminate |].
  destruct (status_not_gated Replies.nothing_works json Replies.loads_no_repo)
    as (_ & Hfails).
  apply Hfails. discriminate.
Defined.
